(** * Jebao pump MQTT bridge: protocol engine and broker adapter

    A shallow embedding of [jebao_mqtt_bridge.py]: the Gizwits framing
    ([_make_packet], [_make_write_p0]), the notification handler and the
    attribute update, the command path, the connect handshake, the
    reconnect back-off and the state publisher of the bridge.

    Conventions.
    - [bytes] objects are [list byte]; Python integers are [Z].  Where
      Python checks a range when it builds bytes ([bytes([..])],
      [int.to_bytes], a [bytearray] store) the model raises the same
      exception.
    - Python floats ([time.time()], the runtime counters) are the binary64
      floats of [PrimFloat].  The delays of the reconnect loop are exact
      rationals: the rounding of their float arithmetic is not modelled.
    - An [await] is a point where the event loop runs something else; a
      single command is followed through without interleaving, [connect]
      takes what runs at each of its awaits as a parameter.
    - A call either returns or raises: [result A].
    - [state_callback] is an observer; the session counts its invocations
      in [callbacks].  The observer installed by the bridge is
      [publish_state], modelled on its own further down. *)

From Stdlib Require Import ZArith List Bool Lia String Ascii.
From Stdlib Require Import Strings.Byte DecimalString.
From Stdlib Require Import QArith Qminmax Lqa.
From Stdlib Require Import Floats.
Import ListNotations.

Local Open Scope Z_scope.

(** ** Exceptions and results *)

Inductive exn : Type :=
| ValueError      (* a byte out of range(256) *)
| OverflowError   (* int.to_bytes: the integer does not fit *)
| BleakError      (* raised by the BLE transport *)
| OtherError.     (* any other Exception raised by the transport *)

Inductive result (A : Type) : Type :=
| Ret (a : A)
| Raise (e : exn).

Arguments Ret {A} a.
Arguments Raise {A} e.

Definition bind {A B : Type} (r : result A) (k : A -> result B) : result B :=
  match r with
  | Ret a => k a
  | Raise e => Raise e
  end.

Notation "'let*' x ':=' r 'in' k" := (bind r (fun x => k))
  (at level 10, x name, r at level 100, k at level 200).

(** ** Bytes *)

Definition bytes := list byte.

Definition byte_to_Z (b : byte) : Z := Z.of_N (Byte.to_N b).

(** One element of [bytes([...])] or one [bytearray] store: a [ValueError]
    outside [range(256)]. *)
Definition byte_of_Z (z : Z) : result byte :=
  if z <? 0 then Raise ValueError
  else match Byte.of_N (Z.to_N z) with
       | Some b => Ret b
       | None => Raise ValueError
       end.

(** [n.to_bytes(len, 'big')] for [len] = 2 and 4: an [OverflowError] when
    [n] is negative or too big. *)
Definition to_bytes2 (n : Z) : result bytes :=
  if (n <? 0) || (65536 <=? n) then Raise OverflowError
  else
    let* hi := byte_of_Z (n / 256) in
    let* lo := byte_of_Z (n mod 256) in
    Ret [hi; lo].

Definition to_bytes4 (n : Z) : result bytes :=
  if (n <? 0) || (4294967296 <=? n) then Raise OverflowError
  else
    let* b3 := byte_of_Z (n / 16777216) in
    let* b2 := byte_of_Z ((n / 65536) mod 256) in
    let* b1 := byte_of_Z ((n / 256) mod 256) in
    let* b0 := byte_of_Z (n mod 256) in
    Ret [b3; b2; b1; b0].

(** [int.from_bytes(bs, 'big')]. *)
Definition from_bytes_big (bs : bytes) : Z :=
  fold_left (fun acc b => acc * 256 + byte_to_Z b) bs 0.

(** Python slices [data[i:j]] and [data[i:]]. *)
Definition slice (i j : nat) (data : bytes) : bytes :=
  firstn (j - i) (skipn i data).

Definition slice_from (i : nat) (data : bytes) : bytes := skipn i data.

(** [data[i]] where the index is known to be in range; [x00] stands for the
    [IndexError] that the guards of the callers exclude. *)
Definition byte_at (i : nat) (data : bytes) : byte := nth i data x00.

(** ** Protocol constants *)

Definition CMD_GET_PASSCODE : Z := 6.
Definition CMD_LOGIN : Z := 8.
Definition CMD_CONTROL : Z := 147.   (* 0x0093 *)

Definition attr := (Z * Z * Z)%type.

Definition ATTR_POWER : attr := (0, 0, 1).
Definition ATTR_FEED : attr := (0, 0, 4).
Definition ATTR_MODE : attr := (0, 16, 2).
Definition ATTR_FLOW : attr := (0, 128, 0).
Definition ATTR_FREQUENCY : attr := (1, 0, 0).

(** The [MODES] dict, in insertion order. *)
Definition MODES : list (Z * string) :=
  [ (0, "Classic Wave"%string);
    (1, "Cross-flow"%string);
    (2, "Sine Wave"%string);
    (4, "Random"%string);
    (6, "Constant"%string) ].

(** [MODE_VALUES = {v: k for k, v in MODES.items()}]. *)
Definition MODE_VALUES : list (string * Z) :=
  map (fun kv => (snd kv, fst kv)) MODES.

(** [key in MODES] and [MODES.get(key, default)]. *)
Fixpoint modes_get (key : Z) (d : list (Z * string)) : option string :=
  match d with
  | [] => None
  | (k, v) :: d' => if k =? key then Some v else modes_get key d'
  end.

Definition in_MODES (key : Z) : bool :=
  match modes_get key MODES with Some _ => true | None => false end.

Fixpoint mode_values_get (key : string) (d : list (string * Z)) : option Z :=
  match d with
  | [] => None
  | (k, v) :: d' => if String.eqb k key then Some v else mode_values_get key d'
  end.

(** ** Codec *)

(** [_make_packet]: [bytes([0,0,0,3,length,0]) + cmd.to_bytes(2,'big') + payload]. *)
Definition make_packet (cmd : Z) (payload : bytes) : result bytes :=
  let length := 3 + Z.of_nat (List.length payload) in
  let* len_b := byte_of_Z length in
  let* cmd_b := to_bytes2 cmd in
  Ret ([x00; x00; x00; x03; len_b; x00] ++ cmd_b ++ payload).

(** [_make_write_p0]: an 11-byte [bytearray], zero but for offsets 0, 7, 8, 9, 10. *)
Definition make_write_p0 (a : attr) (value : Z) : result bytes :=
  let '(ty, hi, lo) := a in
  let* b7 := byte_of_Z ty in
  let* b8 := byte_of_Z hi in
  let* b9 := byte_of_Z lo in
  let* b10 := byte_of_Z value in
  Ret [x11; x00; x00; x00; x00; x00; x00; b7; b8; b9; b10].

(** The decoding steps of [_notification_handler]: frames under 8 bytes are
    dropped, the command is [int.from_bytes(data[6:8], 'big')] and the
    payload is [data[8:]]. *)
Definition frame_cmd (data : bytes) : Z := from_bytes_big (slice 6 8 data).

Definition frame_payload (data : bytes) : bytes := slice_from 8 data.

Definition parse_frame (data : bytes) : option (Z * bytes) :=
  if (List.length data <? 8)%nat then None
  else Some (frame_cmd data, frame_payload data).

(** ** Data model *)

Record PumpState : Type := mkPumpState {
  power : bool;
  feed : bool;
  mode : Z;
  flow : Z;
  frequency : Z;
  connected : bool;
  power_on_time : float;
  runtime_today : float;
  last_runtime_reset : string;
  state_initialized : bool
}.

(** The dataclass defaults. *)
Definition default_state : PumpState :=
  mkPumpState false false 0 50 8 false 0%float 0%float EmptyString false.

(** [PumpConfig], with [id] as [__post_init__] leaves it. *)
Record PumpConfig : Type := mkPumpConfig {
  name : string;
  mac : string;
  id : string;
  flow_min : Z;
  flow_max : Z;
  frequency_min : Z;
  frequency_max : Z
}.

(** What the session reads of its [BleakClient]. *)
Record Client : Type := mkClient {
  is_connected : bool
}.

(** [JebaoPump].  [callbacks] counts the invocations of [state_callback]
    and [login_tasks] the [_send_login] tasks handed to the event loop;
    [loop_bound] says whether [_loop] is set. *)
Record Session : Type := mkSession {
  config : PumpConfig;
  state : PumpState;
  client : option Client;
  passcode : bytes;
  command_sn : Z;
  authenticated : bool;
  running : bool;
  loop_bound : bool;
  pump_index : Z;
  callbacks : nat;
  login_tasks : nat
}.

(** [JebaoPump.__init__]. *)
Definition new_session (c : PumpConfig) (index : Z) : Session :=
  mkSession c default_state None [] 1 false true false index 0%nat 0%nat.

Definition set_power_field (v : bool) (p : PumpState) : PumpState :=
  mkPumpState v (feed p) (mode p) (flow p) (frequency p) (connected p)
    (power_on_time p) (runtime_today p) (last_runtime_reset p) (state_initialized p).

Definition set_feed_field (v : bool) (p : PumpState) : PumpState :=
  mkPumpState (power p) v (mode p) (flow p) (frequency p) (connected p)
    (power_on_time p) (runtime_today p) (last_runtime_reset p) (state_initialized p).

Definition set_mode_field (v : Z) (p : PumpState) : PumpState :=
  mkPumpState (power p) (feed p) v (flow p) (frequency p) (connected p)
    (power_on_time p) (runtime_today p) (last_runtime_reset p) (state_initialized p).

Definition set_flow_field (v : Z) (p : PumpState) : PumpState :=
  mkPumpState (power p) (feed p) (mode p) v (frequency p) (connected p)
    (power_on_time p) (runtime_today p) (last_runtime_reset p) (state_initialized p).

Definition set_frequency_field (v : Z) (p : PumpState) : PumpState :=
  mkPumpState (power p) (feed p) (mode p) (flow p) v (connected p)
    (power_on_time p) (runtime_today p) (last_runtime_reset p) (state_initialized p).

Definition set_connected (v : bool) (p : PumpState) : PumpState :=
  mkPumpState (power p) (feed p) (mode p) (flow p) (frequency p) v
    (power_on_time p) (runtime_today p) (last_runtime_reset p) (state_initialized p).

Definition set_power_on_time (v : float) (p : PumpState) : PumpState :=
  mkPumpState (power p) (feed p) (mode p) (flow p) (frequency p) (connected p)
    v (runtime_today p) (last_runtime_reset p) (state_initialized p).

Definition set_runtime_today (v : float) (p : PumpState) : PumpState :=
  mkPumpState (power p) (feed p) (mode p) (flow p) (frequency p) (connected p)
    (power_on_time p) v (last_runtime_reset p) (state_initialized p).

Definition set_last_runtime_reset (v : string) (p : PumpState) : PumpState :=
  mkPumpState (power p) (feed p) (mode p) (flow p) (frequency p) (connected p)
    (power_on_time p) (runtime_today p) v (state_initialized p).

Definition set_state_initialized (v : bool) (p : PumpState) : PumpState :=
  mkPumpState (power p) (feed p) (mode p) (flow p) (frequency p) (connected p)
    (power_on_time p) (runtime_today p) (last_runtime_reset p) v.

Definition with_state (p : PumpState) (s : Session) : Session :=
  mkSession (config s) p (client s) (passcode s) (command_sn s)
    (authenticated s) (running s) (loop_bound s) (pump_index s)
    (callbacks s) (login_tasks s).

Definition with_client (c : option Client) (s : Session) : Session :=
  mkSession (config s) (state s) c (passcode s) (command_sn s)
    (authenticated s) (running s) (loop_bound s) (pump_index s)
    (callbacks s) (login_tasks s).

Definition with_passcode (b : bytes) (s : Session) : Session :=
  mkSession (config s) (state s) (client s) b (command_sn s)
    (authenticated s) (running s) (loop_bound s) (pump_index s)
    (callbacks s) (login_tasks s).

Definition with_command_sn (n : Z) (s : Session) : Session :=
  mkSession (config s) (state s) (client s) (passcode s) n
    (authenticated s) (running s) (loop_bound s) (pump_index s)
    (callbacks s) (login_tasks s).

Definition with_authenticated (b : bool) (s : Session) : Session :=
  mkSession (config s) (state s) (client s) (passcode s) (command_sn s)
    b (running s) (loop_bound s) (pump_index s)
    (callbacks s) (login_tasks s).

Definition with_running (b : bool) (s : Session) : Session :=
  mkSession (config s) (state s) (client s) (passcode s) (command_sn s)
    (authenticated s) b (loop_bound s) (pump_index s)
    (callbacks s) (login_tasks s).

Definition with_loop_bound (b : bool) (s : Session) : Session :=
  mkSession (config s) (state s) (client s) (passcode s) (command_sn s)
    (authenticated s) (running s) b (pump_index s)
    (callbacks s) (login_tasks s).

(** [self.state_callback(self)]. *)
Definition state_callback (s : Session) : Session :=
  mkSession (config s) (state s) (client s) (passcode s) (command_sn s)
    (authenticated s) (running s) (loop_bound s) (pump_index s)
    (S (callbacks s)) (login_tasks s).

(** [asyncio.create_task(self._send_login())]. *)
Definition create_login_task (s : Session) : Session :=
  mkSession (config s) (state s) (client s) (passcode s) (command_sn s)
    (authenticated s) (running s) (loop_bound s) (pump_index s)
    (callbacks s) (S (login_tasks s)).

(** [self.client and self.client.is_connected]. *)
Definition client_connected (s : Session) : bool :=
  match client s with
  | Some c => is_connected c
  | None => false
  end.

(** ** Inbound attribute update *)

(** Python's [bool(value)] on an integer. *)
Definition truthy (value : Z) : bool := negb (value =? 0).

(** The power branch of [_update_state], entered when the value differs:
    runtime accounting, then the store. *)
Definition track_power (now : float) (value : Z) (p : PumpState) : PumpState :=
  let p1 :=
    if truthy value then set_power_on_time now p
    else if PrimFloat.ltb 0%float (power_on_time p) then
      let elapsed_hours :=
        PrimFloat.div (PrimFloat.sub now (power_on_time p)) 3600%float in
      set_power_on_time 0%float
        (set_runtime_today (PrimFloat.add (runtime_today p) elapsed_hours) p)
    else p in
  set_power_field (truthy value) p1.

(** The body of [_update_state] up to [if changed]: the new state and the
    [changed] flag.  [now] is what [time.time()] returns. *)
Definition apply_attribute (now : float) (type_byte attr_hi attr_lo value : Z)
    (p : PumpState) : PumpState * bool :=
  if (type_byte =? 0) && (attr_hi =? 0) && (attr_lo =? 1) then
    if negb (Bool.eqb (power p) (truthy value))
    then (track_power now value p, true) else (p, false)
  else if (type_byte =? 0) && (attr_hi =? 0) && (attr_lo =? 4) then
    if negb (Bool.eqb (feed p) (truthy value))
    then (set_feed_field (truthy value) p, true) else (p, false)
  else if (type_byte =? 0) && (attr_hi =? 16) && (attr_lo =? 2) then
    if negb (mode p =? value)
    then (set_mode_field value p, true) else (p, false)
  else if (type_byte =? 0) && (attr_hi =? 128) && (attr_lo =? 0) then
    if negb (flow p =? value)
    then (set_flow_field value p, true) else (p, false)
  else if (type_byte =? 1) && (attr_hi =? 0) && (attr_lo =? 0) then
    if negb (frequency p =? value)
    then (set_frequency_field value p, true) else (p, false)
  else (p, false).

(** [_update_state]. *)
Definition update_state (now : float) (type_byte attr_hi attr_lo value : Z)
    (s : Session) : Session :=
  let '(p, changed) := apply_attribute now type_byte attr_hi attr_lo value (state s) in
  if changed
  then state_callback (with_state (set_state_initialized true p) s)
  else with_state p s.

(** [_notification_handler]. *)
Definition notification_handler (now : float) (data : bytes) (s : Session) : Session :=
  if (List.length data <? 8)%nat then s
  else
    let cmd := from_bytes_big (slice 6 8 data) in
    if (cmd =? 7) && (8 <? List.length data)%nat then
      create_login_task (with_passcode (slice_from 8 data) s)
    else if cmd =? 9 then
      if (8 <? List.length data)%nat && (byte_to_Z (byte_at 8 data) =? 0) then
        state_callback
          (with_state (set_connected true (state s)) (with_authenticated true s))
      else s
    else if (cmd =? 147) && (19 <=? List.length data)%nat then
      let p0 := slice_from 12 data in
      if (11 <=? List.length p0)%nat then
        update_state now
          (byte_to_Z (byte_at 7 p0)) (byte_to_Z (byte_at 8 p0))
          (byte_to_Z (byte_at 9 p0)) (byte_to_Z (byte_at 10 p0)) s
      else s
    else s.

(** ** Transport *)

(** The BLE calls a session makes, each with the way it ends: it returns,
    or it raises [BleakError] or some other exception.  [disconnect()] is
    not listed: its only caller swallows whatever it raises. *)
Record Transport : Type := mkTransport {
  open_client : result unit;               (* BleakClient(mac, ...) *)
  gatt_connect : result unit;              (* await client.connect() *)
  start_notify : result unit;              (* await client.start_notify(..) *)
  write_gatt_char : bytes -> result unit   (* await client.write_gatt_char(..) *)
}.

(** The calls made, in order, whatever their outcome. *)
Inductive op : Type :=
| OpOpen
| OpConnect
| OpStartNotify
| OpWrite (packet : bytes)
| OpDisconnect.

(** ** Command path *)

(** The three lines of [_send_command] that build the control frame:
    the P0, the serial in front of it, the packet. *)
Definition control_packet (sn : Z) (a : attr) (value : Z) : result bytes :=
  let* p0 := make_write_p0 a value in
  let* sn_b := to_bytes4 sn in
  make_packet CMD_CONTROL (sn_b ++ p0).

(** [_send_command].  The serial is incremented before the write is
    awaited; only [BleakError] is caught. *)
Definition send_command (tr : Transport) (a : attr) (value : Z) (s : Session)
    : result bool * list op * Session :=
  if negb (authenticated s) || negb (client_connected s) then (Ret false, [], s)
  else
    match control_packet (command_sn s) a value with
    | Raise e => (Raise e, [], s)
    | Ret packet =>
        let s1 := with_command_sn (command_sn s + 1) s in
        match write_gatt_char tr packet with
        | Ret _ => (Ret true, [OpWrite packet], s1)
        | Raise BleakError => (Ret false, [OpWrite packet], s1)
        | Raise e => (Raise e, [OpWrite packet], s1)
        end
    end.

(** [_send_login]. *)
Definition send_login (tr : Transport) (s : Session) : result unit * list op :=
  if client_connected s then
    match make_packet CMD_LOGIN (passcode s) with
    | Raise e => (Raise e, [])
    | Ret packet => (write_gatt_char tr packet, [OpWrite packet])
    end
  else (Ret tt, []).

Definition set_power (tr : Transport) (on : bool) (s : Session) :=
  send_command tr ATTR_POWER (if on then 1 else 0) s.

Definition set_feed (tr : Transport) (on : bool) (s : Session) :=
  send_command tr ATTR_FEED (if on then 1 else 0) s.

Definition set_flow (tr : Transport) (percent : Z) (s : Session) :=
  let percent := Z.max (flow_min (config s)) (Z.min (flow_max (config s)) percent) in
  send_command tr ATTR_FLOW percent s.

Definition set_frequency (tr : Transport) (seconds : Z) (s : Session) :=
  let seconds :=
    Z.max (frequency_min (config s)) (Z.min (frequency_max (config s)) seconds) in
  send_command tr ATTR_FREQUENCY seconds s.

Definition set_mode (tr : Transport) (mode : Z) (s : Session)
    : result bool * list op * Session :=
  if in_MODES mode then send_command tr ATTR_MODE mode s
  else (Ret false, [], s).

Definition set_mode_by_name (tr : Transport) (mode_name : string) (s : Session)
    : result bool * list op * Session :=
  match mode_values_get mode_name MODE_VALUES with
  | Some v => set_mode tr v s
  | None => (Ret false, [], s)
  end.

(** The packets among the calls made. *)
Fixpoint written (ops : list op) : list bytes :=
  match ops with
  | [] => []
  | OpWrite packet :: ops' => packet :: written ops'
  | _ :: ops' => written ops'
  end.

(** ** Connect handshake *)

Section Connect.

(** The outcome of the BLE calls of this attempt. *)
Variable tr : Transport.

(** What the event loop runs on the session while [connect] is suspended
    at its [k]-th await: notifications, scheduled tasks, callbacks. *)
Variable sched : nat -> Session -> Session.

(** [_cleanup_connection], suspended at await [k] when there is a client
    to disconnect; an error of [disconnect()] is swallowed. *)
Definition cleanup_connection (k : nat) (s : Session) : list op * Session :=
  let s1 := with_state (set_connected false (state s)) (with_authenticated false s) in
  match client s1 with
  | Some _ => ([OpDisconnect], with_client None (sched k s1))
  | None => ([], s1)
  end.

(** The [for _ in range(n)] loop of [connect]: poll, then sleep 0.1 s at
    await [k]. *)
Fixpoint wait_authenticated (n k : nat) (s : Session) : bool * Session :=
  match n with
  | O => (false, s)
  | S n' =>
      if authenticated s then (true, s)
      else wait_authenticated n' (S k) (sched k s)
  end.

(** The two [except] clauses of [connect]: clean up, return [False]. *)
Definition connect_failed (ops : list op) (k : nat) (s : Session)
    : bool * list op * Session :=
  let '(ops', s') := cleanup_connection k s in
  (false, ops ++ ops', s').

(** [connect], for a caller that holds [_connect_lock]. *)
Definition connect (s : Session) : bool * list op * Session :=
  if client_connected s then (true, [], s)
  else
    let s0 := with_loop_bound true s in
    match open_client tr with
    | Raise _ => connect_failed [OpOpen] 0 s0
    | Ret _ =>
        let s1 := with_client (Some (mkClient false)) s0 in
        match gatt_connect tr with
        | Raise _ => connect_failed [OpOpen; OpConnect] 1 (sched 0 s1)
        | Ret _ =>
            let s2 := with_client (Some (mkClient true)) (sched 0 s1) in
            match start_notify tr with
            | Raise _ =>
                connect_failed [OpOpen; OpConnect; OpStartNotify] 2 (sched 1 s2)
            | Ret _ =>
                let s3 := sched 1 s2 in
                match make_packet CMD_GET_PASSCODE [] with
                | Raise _ =>
                    connect_failed [OpOpen; OpConnect; OpStartNotify] 2 s3
                | Ret packet =>
                    let ops := [OpOpen; OpConnect; OpStartNotify; OpWrite packet] in
                    match write_gatt_char tr packet with
                    | Raise _ => connect_failed ops 3 (sched 2 s3)
                    | Ret _ =>
                        let '(ok, s4) := wait_authenticated 50 3 (sched 2 s3) in
                        if ok then (true, ops, s4)
                        else connect_failed ops 53 s4
                    end
                end
            end
        end
    end.

End Connect.

(** A scheduler that only delivers notifications: [inbox k] are the frames
    that arrive during await [k]. *)
Definition deliver (now : float) (inbox : nat -> list bytes) (k : nat)
    (s : Session) : Session :=
  fold_left (fun s' data => notification_handler now data s') (inbox k) s.

(** ** Reconnect back-off *)

(** [delay = min(delay * 2 + jitter, max_delay)], over exact rationals. *)
Definition next_delay (delay jitter : Q) : Q :=
  Qmin (delay * 2 + jitter)%Q 300%Q.


Section Reconnect.

(** The [k]-th call of [connect()] and what runs during the [k]-th sleep. *)
Variable attempt : nat -> Session -> bool * Session.
Variable asleep : nat -> Session -> Session.
Variable jitter : nat -> Q.

(** The [while not self.authenticated] loop of [_reconnect_loop], after
    the stagger sleep; [max_attempts] is 0, so its test never fires.
    Returns the delays slept, in order.  [fuel] bounds the number of
    iterations that are unrolled. *)
Fixpoint reconnect_loop (fuel k : nat) (delay : Q) (s : Session)
    : list Q * Session :=
  match fuel with
  | O => ([], s)
  | S fuel' =>
      if authenticated s then ([], s)
      else
        let s1 := asleep k s in
        if negb (running s1) then ([delay], s1)
        else
          let '(ok, s2) := attempt k s1 in
          if ok then ([delay], s2)
          else
            let '(ds, s3) :=
              reconnect_loop fuel' (S k) (next_delay delay (jitter k)) s2 in
            (delay :: ds, s3)
  end.

End Reconnect.

(** ** Broker adapter *)

Local Open Scope string_scope.

(** [str.lower()].  Characters from 128 up stand for the non-ASCII text of
    the payload: lower-casing never turns one of them into a letter of
    [on], [true] or [1], so they are left as they are. *)
Definition lower_ascii (c : ascii) : ascii :=
  let n := N_of_ascii c in
  if ((65 <=? n) && (n <=? 90))%N then ascii_of_N (n + 32) else c.

Fixpoint lower (s : string) : string :=
  match s with
  | EmptyString => EmptyString
  | String c s' => String (lower_ascii c) (lower s')
  end.

(** [x in (a, b, c)] on strings. *)
Fixpoint str_in (x : string) (l : list string) : bool :=
  match l with
  | [] => false
  | y :: l' => String.eqb x y || str_in x l'
  end.

(** [payload.lower() in ('on', 'true', '1')]. *)
Definition payload_on (payload : string) : bool :=
  str_in (lower payload) ["on"; "true"; "1"].

(** [str(n)] for an integer. *)
Definition str_of_int (n : Z) : string := NilZero.string_of_int (Z.to_int n).

(** The session call a broker command leads to. *)
Inductive call : Type :=
| CallSetPower (on : bool)
| CallSetFeed (on : bool)
| CallSetFlow (percent : Z)
| CallSetFrequency (seconds : Z)
| CallSetModeByName (mode_name : string).

Definition run_call (tr : Transport) (c : call) (s : Session)
    : result bool * list op * Session :=
  match c with
  | CallSetPower on => set_power tr on s
  | CallSetFeed on => set_feed tr on s
  | CallSetFlow percent => set_flow tr percent s
  | CallSetFrequency seconds => set_frequency tr seconds s
  | CallSetModeByName mode_name => set_mode_by_name tr mode_name s
  end.

Record MqttClient : Type := mkMqttClient {
  mqtt_is_connected : bool
}.

(** [MQTTBridge], as far as [_publish_state] reads it: the client and the
    [topic_prefix] entry of the [mqtt] block, if any. *)
Record Bridge : Type := mkBridge {
  mqtt_client : option MqttClient;
  cfg_topic_prefix : option string
}.

(** [self._get_mqtt_config()['topic_prefix']]. *)
Definition topic_prefix (b : Bridge) : string :=
  match cfg_topic_prefix b with
  | Some p => p
  | None => "jebao"
  end.

(** One [mqtt_client.publish(topic, payload, retain=...)]. *)
Record message : Type := mkMessage {
  topic : string;
  payload : string;
  retain : bool
}.

Definition on_off (b : bool) : string := if b then "ON" else "OFF".

Section Bridge.

(** Python's [int(float(payload))] and [f"{x:.2f}"]. *)
Variable int_of_float_str : string -> result Z.
Variable format_2f : float -> string.

(** The argument evaluation of [_handle_command]: which session method
    is called, and with what. *)
Definition command_call (entity payload : string) : result (option call) :=
  if String.eqb entity "power" then Ret (Some (CallSetPower (payload_on payload)))
  else if String.eqb entity "feed" then Ret (Some (CallSetFeed (payload_on payload)))
  else if String.eqb entity "flow" then
    let* v := int_of_float_str payload in Ret (Some (CallSetFlow v))
  else if String.eqb entity "frequency" then
    let* v := int_of_float_str payload in Ret (Some (CallSetFrequency v))
  else if String.eqb entity "mode" then Ret (Some (CallSetModeByName payload))
  else Ret None.

(** [_handle_command]: every exception is caught and logged. *)
Definition handle_command (tr : Transport) (pump : Session)
    (entity payload : string) : list op * Session :=
  match command_call entity payload with
  | Ret (Some c) => let '(_, ops, pump') := run_call tr c pump in (ops, pump')
  | Ret None => ([], pump)
  | Raise _ => ([], pump)
  end.

Definition state_topic (b : Bridge) (pump : Session) (entity : string) : string :=
  topic_prefix b ++ "/" ++ id (config pump) ++ "/" ++ entity ++ "/state".

(** The daily reset of [_publish_state]. *)
Definition reset_runtime (today : string) (p : PumpState) : PumpState :=
  if negb (String.eqb (last_runtime_reset p) today)
  then set_last_runtime_reset today (set_runtime_today 0%float p)
  else p.

(** The runtime published: the counter plus the running session. *)
Definition current_runtime (now : float) (p : PumpState) : float :=
  if power p && PrimFloat.ltb 0%float (power_on_time p)
  then PrimFloat.add (runtime_today p)
         (PrimFloat.div (PrimFloat.sub now (power_on_time p)) 3600%float)
  else runtime_today p.

(** [_publish_state]: the messages published, in order, and the pump,
    whose runtime fields it may reset.  [today] is
    [date.today().isoformat()] and [now] is [time.time()]. *)
Definition publish_state (today : string) (now : float) (b : Bridge)
    (pump : Session) : list message * Session :=
  match mqtt_client b with
  | None => ([], pump)
  | Some c =>
      if negb (mqtt_is_connected c) then ([], pump)
      else
        let m_connected :=
          mkMessage (state_topic b pump "connected")
            (on_off (connected (state pump))) true in
        if negb (state_initialized (state pump)) then ([m_connected], pump)
        else
          let p := reset_runtime today (state pump) in
          let runtime := current_runtime now p in
          ([ m_connected;
             mkMessage (state_topic b pump "power") (on_off (power p)) true;
             mkMessage (state_topic b pump "feed") (on_off (feed p)) true;
             mkMessage (state_topic b pump "flow") (str_of_int (flow p)) true;
             mkMessage (state_topic b pump "frequency")
               (str_of_int (frequency p)) true;
             mkMessage (state_topic b pump "mode")
               (match modes_get (mode p) MODES with
                | Some n => n
                | None => "Unknown"
                end) true;
             mkMessage (state_topic b pump "runtime") (format_2f runtime) true ],
           with_state p pump)
  end.

End Bridge.

(** The state topics other than [connected/state]. *)
Definition value_entities : list string :=
  ["power"; "feed"; "flow"; "frequency"; "mode"; "runtime"].

Local Close Scope string_scope.

(** ** The command table of the specification, as it is worded

    Stated from the specification, to be compared with [payload_on]:
    "truthy iff lowercase-stripped in on, true, 1". *)

(** [str.isspace()] on the ASCII range. *)
Definition is_space (c : ascii) : bool :=
  let n := N_of_ascii c in
  (((9 <=? n) && (n <=? 13)) || ((28 <=? n) && (n <=? 32)))%N.

Fixpoint lstrip (s : string) : string :=
  match s with
  | EmptyString => EmptyString
  | String c s' => if is_space c then lstrip s' else s
  end.

Fixpoint rstrip (s : string) : string :=
  match s with
  | EmptyString => EmptyString
  | String c s' =>
      match rstrip s' with
      | EmptyString => if is_space c then EmptyString else String c EmptyString
      | r => String c r
      end
  end.

Definition strip (s : string) : string := rstrip (lstrip s).

Definition spec_payload_on (payload : string) : bool :=
  str_in (lower (strip payload)) ["on"%string; "true"%string; "1"%string].

(** ** Vocabulary of the properties *)

(** The triple is one of the five attributes of the table. *)
Definition known_attribute (type_byte attr_hi attr_lo : Z) : bool :=
  existsb (fun a : attr => let '(t, h, l) := a in
             (type_byte =? t) && (attr_hi =? h) && (attr_lo =? l))
    [ATTR_POWER; ATTR_FEED; ATTR_MODE; ATTR_FLOW; ATTR_FREQUENCY].

Definition test_config : PumpConfig :=
  mkPumpConfig "Test Pump" "AA:BB:CC:DD:EE:FF" "test_pump" 30 100 5 20.

(** The session passes the guard of [_send_command]. *)
Definition ready (s : Session) : Prop :=
  authenticated s = true /\ client_connected s = true.

(** The serial fits the four bytes it is written on. *)
Definition serial_fits (s : Session) : Prop :=
  0 <= command_sn s < 4294967296.

Definition known_modes : list Z := [0; 1; 2; 4; 6].

(** Offset 10 of the P0 of a control frame: the P0 follows the 8-byte
    header and the 4-byte serial. *)
Definition p0_value (packet : bytes) : Z :=
  byte_to_Z (byte_at 10 (slice_from 12 packet)).

(** The serial of a control frame. *)
Definition frame_serial (packet : bytes) : Z :=
  from_bytes_big (slice 8 12 packet).

(** The bytes of an attribute triple and of a value fit a P0. *)
Definition attr_fits (a : attr) : Prop :=
  let '(t, h, l) := a in 0 <= t < 256 /\ 0 <= h < 256 /\ 0 <= l < 256.

(** The broker client is there and connected. *)
Definition broker_up (b : Bridge) : bool :=
  match mqtt_client b with
  | Some c => mqtt_is_connected c
  | None => false
  end.


(** Stand-ins for [int(float(..))] and the [.2f] format in examples. *)
Definition no_number (_ : string) : result Z := Raise ValueError.
Definition no_format (_ : float) : string := EmptyString.

(** The frame [_make_packet(CMD_GET_PASSCODE)]. *)
Definition get_passcode_frame : bytes :=
  [x00; x00; x00; x03; x03; x00; x00; x06].

(** Opening the link, subscribing and writing the passcode request all
    return. *)
Definition handshake_sent (tr : Transport) : Prop :=
  open_client tr = Ret tt
  /\ gatt_connect tr = Ret tt
  /\ start_notify tr = Ret tt
  /\ write_gatt_char tr get_passcode_frame = Ret tt.

(** The session when the passcode request has been written: the first
    three awaits of [connect] are behind. *)
Definition after_handshake (sched : nat -> Session -> Session) (s : Session)
    : Session :=
  sched 2%nat
    (sched 1%nat
       (with_client (Some (mkClient true))
          (sched 0%nat
             (with_client (Some (mkClient false)) (with_loop_bound true s))))).

(** The session after [i] sleeps of the wait loop, the first one being
    await [k]. *)
Fixpoint sleeps (sched : nat -> Session -> Session) (i k : nat) (s : Session)
    : Session :=
  match i with
  | O => s
  | S i' => sleeps sched i' (S k) (sched k s)
  end.

(** The session at the [i]-th poll of [self.authenticated] in [connect]. *)
Definition at_poll (sched : nat -> Session -> Session) (s : Session) (i : nat)
    : Session :=
  sleeps sched i 3 (after_handshake sched s).

(** Nothing else runs while [connect] is suspended. *)
Definition idle (_ : nat) (s : Session) : Session := s.

(** A session whose link is up but which has not been authenticated. *)
Definition linked_session : Session :=
  with_client (Some (mkClient true)) (new_session test_config 0).

(** Scenario S1: the passcode response arrives while the request is being
    written, the login response during the first sleep. *)
Definition s1_inbox (k : nat) : list bytes :=
  match k with
  | 2%nat => [[x00; x00; x00; x03; x0b; x00; x00; x07;
               xaa; xbb; xcc; xdd; xee; xff; x11; x22]]
  | 3%nat => [[x00; x00; x00; x03; x04; x00; x00; x09; x00]]
  | _ => []
  end.

(** A transport on which every call succeeds, and one whose writes raise
    [BleakError]. *)
Definition good_transport : Transport :=
  mkTransport (Ret tt) (Ret tt) (Ret tt) (fun _ => Ret tt).

Definition failing_transport : Transport :=
  mkTransport (Ret tt) (Ret tt) (Ret tt) (fun _ => Raise BleakError).

(** A session that is connected and authenticated, as the tests set it up. *)
Definition ready_session : Session :=
  with_authenticated true
    (with_client (Some (mkClient true)) (new_session test_config 0)).

(** The frame of scenario S4 as the specification prints it, 21 bytes,
    and the same update with the 11-byte P0 of the write layout, 23 bytes. *)
Definition s4_frame : bytes :=
  [x00; x00; x00; x03; x10; x00; x00; x93; x00; x00; x00; x00;
   x11; x00; x00; x00; x00; x00; x10; x02; x04].

Definition mode_frame : bytes :=
  [x00; x00; x00; x03; x12; x00; x00; x93; x00; x00; x00; x00;
   x11; x00; x00; x00; x00; x00; x00; x00; x10; x02; x04].

(** ** Further operations of the bridge *)

Local Open Scope string_scope.

(** [s.replace(a, b)] for one-character [a] and [b]. *)
Fixpoint replace_char (a b : ascii) (s : string) : string :=
  match s with
  | EmptyString => EmptyString
  | String c s' =>
      String (if Ascii.eqb c a then b else c) (replace_char a b s')
  end.

(** [self.name.lower().replace(" ", "_").replace("-", "_")]. *)
Definition generated_id (name : string) : string :=
  replace_char "-" "_" (replace_char " " "_" (lower name)).

(** [PumpConfig.__post_init__]: an empty [id] is derived from the name. *)
Definition post_init (c : PumpConfig) : PumpConfig :=
  if String.eqb (id c) "" then
    mkPumpConfig (name c) (mac c) (generated_id (name c))
      (flow_min c) (flow_max c) (frequency_min c) (frequency_max c)
  else c.

(** [PumpConfig(name=.., mac=..)] with the defaults of the dataclass. *)
Definition default_config (name mac : string) : PumpConfig :=
  post_init (mkPumpConfig name mac "" 30 100 5 20).

(** [_on_disconnect]: the flags are cleared, the observer is told, and a
    reconnect task is scheduled when the loop is known and no such task is
    in flight.  [task_in_flight] says that [_reconnect_task] is set and not
    done; the boolean returned says whether a task was scheduled. *)
Definition on_disconnect (task_in_flight : bool) (s : Session) : Session * bool :=
  let s1 :=
    with_state
      (set_state_initialized false (set_connected false (state s)))
      (with_authenticated false s) in
  (state_callback s1, loop_bound s && negb task_in_flight).

(** [disconnect]: stop the reconnect loop, then clean up; the cleanup may
    be suspended at await 0. *)
Definition disconnect (sched : nat -> Session -> Session) (s : Session)
    : list op * Session :=
  cleanup_connection sched 0 (with_running false s).

(** [topic.split('/')]: never empty. *)
Fixpoint split_slash (s : string) : list string :=
  match s with
  | EmptyString => [EmptyString]
  | String c s' =>
      if Ascii.eqb c "/" then EmptyString :: split_slash s'
      else
        match split_slash s' with
        | h :: t => String c h :: t
        | [] => [String c EmptyString]
        end
  end.

(** [self.pumps[pump_id]], the dict being the list of its items. *)
Fixpoint pumps_get (pump_id : string) (pumps : list (string * Session))
    : option Session :=
  match pumps with
  | [] => None
  | (k, v) :: pumps' =>
      if String.eqb k pump_id then Some v else pumps_get pump_id pumps'
  end.

(** [self.pumps[key] = value]: an existing key keeps its place. *)
Fixpoint pumps_set (key : string) (value : Session)
    (pumps : list (string * Session)) : list (string * Session) :=
  match pumps with
  | [] => [(key, value)]
  | (k, v) :: pumps' =>
      if String.eqb k key then (key, value) :: pumps'
      else (k, v) :: pumps_set key value pumps'
  end.

(** The loop of [start] that creates the pump instances: the
    configurations are enumerated from [index] and each pump is stored
    under the id of its configuration. *)
Fixpoint create_pumps (index : Z) (configs : list PumpConfig)
    (pumps : list (string * Session)) : list (string * Session) :=
  match configs with
  | [] => pumps
  | pc :: configs' =>
      create_pumps (index + 1) configs'
        (pumps_set (id pc) (new_session pc index) pumps)
  end.

(** [_on_mqtt_message], up to the call it schedules: the pump, the entity
    and the payload handed to [_handle_command], or nothing.  [payload] is
    the decoded [msg.payload]; [loop_set] says that [_loop] is set. *)
Definition on_mqtt_message (b : Bridge) (pumps : list (string * Session))
    (loop_set : bool) (topic payload : string)
    : option (Session * string * string) :=
  let parts := split_slash topic in
  if (List.length parts <? 4)%nat || negb (String.eqb (last parts "") "set")
  then None
  else if negb (String.eqb (nth 0 parts "") (topic_prefix b)) then None
  else
    let pump_id := nth 1 parts "" in
    let entity := nth 2 parts "" in
    match pumps_get pump_id pumps with
    | None => None
    | Some pump => if loop_set then Some (pump, entity, payload) else None
    end.

(** The entities of the command topics. *)
Definition command_entities : list string :=
  ["power"; "feed"; "flow"; "frequency"; "mode"].

(** [_subscribe_pump_commands]: the topics subscribed, in order. *)
Definition subscribe_pump_commands (b : Bridge) (pump_id : string)
    : list string :=
  map (fun t => topic_prefix b ++ "/" ++ pump_id ++ "/" ++ t ++ "/set")
    command_entities.

(** *** The scanner ([scripts/scan.py]) *)

Definition GIZWITS_SERVICE_UUID : string :=
  "0000abf0-0000-1000-8000-00805f9b34fb".

Definition JEBAO_PATTERNS : list string :=
  ["XPG-GAgent"; "XPG_GAgent"; "Jebao"; "Gizwits"].

(** [hay.startswith(needle)] and [needle in hay] on strings. *)
Fixpoint starts_with (needle hay : string) : bool :=
  match needle, hay with
  | EmptyString, _ => true
  | String _ _, EmptyString => false
  | String a n', String b h' => Ascii.eqb a b && starts_with n' h'
  end.

Fixpoint contains (needle hay : string) : bool :=
  starts_with needle hay
  || match hay with
     | EmptyString => false
     | String _ h' => contains needle h'
     end.

(** [is_jebao]. *)
Definition is_jebao (name : string) (service_uuids : list string) : bool :=
  (negb (String.eqb name "")
   && existsb (fun pattern => contains (lower pattern) (lower name))
        JEBAO_PATTERNS)
  || str_in (lower GIZWITS_SERVICE_UUID) (map lower service_uuids).

Local Close Scope string_scope.

(** *** Vocabulary of the further properties *)

(** Every character is below 128. *)
Fixpoint ascii_only (s : string) : bool :=
  match s with
  | EmptyString => true
  | String c s' => (N_of_ascii c <? 128)%N && ascii_only s'
  end.

(** The character does not occur in the string. *)
Fixpoint lacks (a : ascii) (s : string) : bool :=
  match s with
  | EmptyString => true
  | String c s' => negb (Ascii.eqb c a) && lacks a s'
  end.

(** No ASCII capital letter occurs in the string. *)
Fixpoint no_capital (s : string) : bool :=
  match s with
  | EmptyString => true
  | String c s' =>
      negb ((65 <=? N_of_ascii c) && (N_of_ascii c <=? 90))%N && no_capital s'
  end.

(** A login response that reports success. *)
Definition login_accepted (data : bytes) : Prop :=
  frame_cmd data = 9 /\ (8 < List.length data)%nat /\ byte_at 8 data = x00.

(** The call does not touch the session but for its serial. *)
Definition only_serial_moved (s s' : Session) : Prop :=
  s' = with_command_sn (command_sn s') s.

(** The last configuration with the given id, and its index, the
    configurations being numbered from [index]. *)
Fixpoint last_with_id (key : string) (index : Z) (configs : list PumpConfig)
    : option (PumpConfig * Z) :=
  match configs with
  | [] => None
  | pc :: configs' =>
      match last_with_id key (index + 1) configs' with
      | Some r => Some r
      | None => if String.eqb (id pc) key then Some (pc, index) else None
      end
  end.

(** [max(lo, min(hi, v))], the value a numeric setter sends. *)
Definition clamp (lo hi v : Z) : Z := Z.max lo (Z.min hi v).

(** What a notification leaves alone, and what it can only raise. *)
Definition notification_keeps (s s' : Session) : Prop :=
  config s' = config s
  /\ client s' = client s
  /\ command_sn s' = command_sn s
  /\ running s' = running s
  /\ loop_bound s' = loop_bound s
  /\ pump_index s' = pump_index s
  /\ (authenticated s = true -> authenticated s' = true)
  /\ (state_initialized (state s) = true ->
      state_initialized (state s') = true)
  /\ (connected (state s) = true -> connected (state s') = true)
  /\ (callbacks s <= callbacks s' <= S (callbacks s))%nat.

(** While the pump is off no power-on instant is pending. *)
Definition runtime_consistent (p : PumpState) : Prop :=
  power p = false -> PrimFloat.ltb 0%float (power_on_time p) = false.

(** * Properties *)

(** ** Codec *)

Lemma byte_of_Z_ok (z : Z) :
  0 <= z < 256 -> exists b, byte_of_Z z = Ret b /\ byte_to_Z b = z.
Proof.
  intros H. unfold byte_of_Z.
  destruct (z <? 0) eqn:E; [apply Z.ltb_lt in E; lia|].
  destruct (Byte.of_N (Z.to_N z)) as [b|] eqn:Eb.
  - exists b. split; [reflexivity|].
    unfold byte_to_Z. apply Byte.to_of_N in Eb. rewrite Eb. lia.
  - apply Byte.of_N_None_iff in Eb. lia.
Qed.

Lemma byte_to_Z_range (b : byte) : 0 <= byte_to_Z b < 256.
Proof.
  unfold byte_to_Z. pose proof (Byte.to_N_bounded b). lia.
Qed.

Lemma to_bytes2_ok (n : Z) :
  0 <= n < 65536 ->
  exists hi lo, to_bytes2 n = Ret [hi; lo] /\ from_bytes_big [hi; lo] = n.
Proof.
  intros H. unfold to_bytes2.
  replace ((n <? 0) || (65536 <=? n)) with false by
    (symmetry; apply orb_false_intro; [apply Z.ltb_ge|apply Z.leb_gt]; lia).
  destruct (byte_of_Z_ok (n / 256)) as (hi & Ehi & Vhi).
  { split; [apply Z.div_pos; lia|apply Z.div_lt_upper_bound; lia]. }
  destruct (byte_of_Z_ok (n mod 256)) as (lo & Elo & Vlo).
  { apply Z.mod_pos_bound; lia. }
  exists hi, lo. rewrite Ehi, Elo. simpl. split; [reflexivity|].
  unfold from_bytes_big. simpl. rewrite Vhi, Vlo.
  pose proof (Z.div_mod n 256). lia.
Qed.

Lemma to_bytes4_ok (n : Z) :
  0 <= n < 4294967296 ->
  exists b3 b2 b1 b0, to_bytes4 n = Ret [b3; b2; b1; b0]
    /\ from_bytes_big [b3; b2; b1; b0] = n.
Proof.
  intros H. unfold to_bytes4.
  replace ((n <? 0) || (4294967296 <=? n)) with false by
    (symmetry; apply orb_false_intro; [apply Z.ltb_ge|apply Z.leb_gt]; lia).
  destruct (byte_of_Z_ok (n / 16777216)) as (b3 & E3 & V3).
  { split; [apply Z.div_pos; lia|apply Z.div_lt_upper_bound; lia]. }
  destruct (byte_of_Z_ok ((n / 65536) mod 256)) as (b2 & E2 & V2).
  { apply Z.mod_pos_bound; lia. }
  destruct (byte_of_Z_ok ((n / 256) mod 256)) as (b1 & E1 & V1).
  { apply Z.mod_pos_bound; lia. }
  destruct (byte_of_Z_ok (n mod 256)) as (b0 & E0 & V0).
  { apply Z.mod_pos_bound; lia. }
  exists b3, b2, b1, b0. rewrite E3, E2, E1, E0. simpl.
  split; [reflexivity|].
  unfold from_bytes_big. simpl. rewrite V3, V2, V1, V0.
  pose proof (Z.div_mod n 256).
  pose proof (Z.div_mod (n / 256) 256).
  pose proof (Z.div_mod (n / 65536) 256).
  replace (n / 65536) with (n / 256 / 256) in * by
    (rewrite Z.div_div by lia; reflexivity).
  replace (n / 16777216) with (n / 256 / 256 / 256) by
    (rewrite !Z.div_div by lia; reflexivity).
  lia.
Qed.

(** The frame layout of [_make_packet], for any command of two bytes and
    any payload whose length byte fits. *)
Lemma make_packet_layout (cmd : Z) (payload : bytes) :
  0 <= cmd < 65536 ->
  (List.length payload <= 252)%nat ->
  exists len_b hi lo,
    make_packet cmd payload
      = Ret ([x00; x00; x00; x03; len_b; x00] ++ [hi; lo] ++ payload)
    /\ byte_to_Z len_b = 3 + Z.of_nat (List.length payload)
    /\ from_bytes_big [hi; lo] = cmd.
Proof.
  intros Hc Hl. unfold make_packet.
  destruct (byte_of_Z_ok (3 + Z.of_nat (List.length payload))) as (lb & El & Vl);
    [lia|].
  destruct (to_bytes2_ok cmd Hc) as (hi & lo & Ec & Vc).
  exists lb, hi, lo. rewrite El, Ec. simpl. repeat split; assumption.
Qed.

(** C5: for each of the commands get_passcode, login and control and a
    payload of at most 250 bytes, the frame built starts with the magic
    00 00 00 03, carries 3 + len(payload) at offset 4, 0x00 at offset 5,
    the big-endian command at offsets 6 and 7 and the payload from offset
    8; decoding it the way the notification handler does gives back the
    command and the payload. *)
Theorem make_packet_parse_roundtrip (cmd : Z) (payload : bytes) :
  In cmd [CMD_GET_PASSCODE; CMD_LOGIN; CMD_CONTROL] ->
  (List.length payload <= 250)%nat ->
  exists frame,
    make_packet cmd payload = Ret frame
    /\ slice 0 4 frame = [x00; x00; x00; x03]
    /\ byte_to_Z (byte_at 4 frame) = 3 + Z.of_nat (List.length payload)
    /\ byte_at 5 frame = x00
    /\ from_bytes_big (slice 6 8 frame) = cmd
    /\ slice_from 8 frame = payload
    /\ List.length frame = (8 + List.length payload)%nat
    /\ parse_frame frame = Some (cmd, payload).
Proof.
  intros Hc Hl.
  assert (Hr : 0 <= cmd < 65536).
  { unfold CMD_GET_PASSCODE, CMD_LOGIN, CMD_CONTROL in Hc. simpl in Hc.
    intuition lia. }
  destruct (make_packet_layout cmd payload Hr) as (lb & hi & lo & E & Vl & Vc);
    [lia|].
  eexists. split; [exact E|].
  unfold parse_frame, frame_cmd, frame_payload, slice, slice_from, byte_at.
  simpl. repeat split; try assumption; try reflexivity.
  rewrite Vc. reflexivity.
Qed.

Lemma make_packet_parse_roundtrip_witness :
  exists frame,
    make_packet CMD_LOGIN [xaa; xbb; xcc; xdd; xee; xff; x11; x22] = Ret frame
    /\ parse_frame frame
       = Some (CMD_LOGIN, [xaa; xbb; xcc; xdd; xee; xff; x11; x22]).
Proof.
  destruct (make_packet_parse_roundtrip CMD_LOGIN
              [xaa; xbb; xcc; xdd; xee; xff; x11; x22]) as (f & E & H).
  - simpl. right. left. reflexivity.
  - simpl. lia.
  - exists f. split; [exact E|]. apply H.
Defined.

(** ** Inbound attribute update *)

Lemma with_state_same (s : Session) : with_state (state s) s = s.
Proof. destruct s; reflexivity. Qed.

Lemma apply_attribute_unknown (now : float) (t h l v : Z) (p : PumpState) :
  known_attribute t h l = false ->
  apply_attribute now t h l v p = (p, false).
Proof.
  unfold known_attribute, apply_attribute, ATTR_POWER, ATTR_FEED, ATTR_MODE,
    ATTR_FLOW, ATTR_FREQUENCY; simpl.
  intros H.
  repeat (apply orb_false_elim in H; destruct H as [?E H]).
  rewrite E, E0, E1, E2, E3. reflexivity.
Qed.

(** C10: an attribute triple that is none of power, feed, mode, flow and
    frequency leaves the whole session as it was, whatever the value: no
    field of the pump state changes, [state_initialized] is not set and
    [state_callback] is not invoked. *)
Theorem update_state_unknown_attribute (now : float) (t h l v : Z) (s : Session) :
  known_attribute t h l = false ->
  update_state now t h l v s = s
  /\ state (update_state now t h l v s) = state s
  /\ state_initialized (state (update_state now t h l v s))
     = state_initialized (state s)
  /\ callbacks (update_state now t h l v s) = callbacks s.
Proof.
  intros H.
  assert (E : update_state now t h l v s = s).
  { unfold update_state. rewrite (apply_attribute_unknown now t h l v _ H).
    apply with_state_same. }
  rewrite E. repeat split.
Qed.

Lemma update_state_unknown_attribute_witness :
  update_state 0%float 2 0 1 255 (new_session (mkPumpConfig "" "" "" 30 100 5 20) 0)
  = new_session (mkPumpConfig "" "" "" 30 100 5 20) 0.
Proof.
  apply (update_state_unknown_attribute 0%float 2 0 1 255). reflexivity.
Defined.

(** ** Notification handler *)

Lemma control_frame_dispatch (now : float) (data : bytes) (s : Session) :
  frame_cmd data = CMD_CONTROL ->
  (8 <= List.length data)%nat ->
  notification_handler now data s =
    if (19 <=? List.length data)%nat then
      let p0 := slice_from 12 data in
      if (11 <=? List.length p0)%nat then
        update_state now
          (byte_to_Z (byte_at 7 p0)) (byte_to_Z (byte_at 8 p0))
          (byte_to_Z (byte_at 9 p0)) (byte_to_Z (byte_at 10 p0)) s
      else s
    else s.
Proof.
  intros Hc Hl. unfold notification_handler.
  unfold frame_cmd in Hc. rewrite Hc.
  destruct (List.length data <? 8)%nat eqn:E; [apply Nat.ltb_lt in E; lia|].
  unfold CMD_CONTROL. simpl.
  destruct (19 <=? List.length data)%nat; reflexivity.
Qed.

(** The literal frame of scenario S4 is a control frame of 21 bytes; its P0
    has 9 bytes, so the handler drops it: the mode of a fresh session stays
    0, [state_initialized] stays false and no event is emitted. *)
Lemma s4_frame_is_dropped :
  frame_cmd s4_frame = CMD_CONTROL
  /\ (19 <= List.length s4_frame)%nat
  /\ mode (state (notification_handler 0%float s4_frame
                    (new_session test_config 0))) = 0
  /\ state_initialized (state (notification_handler 0%float s4_frame
                                 (new_session test_config 0))) = false
  /\ callbacks (notification_handler 0%float s4_frame
                  (new_session test_config 0)) = 0%nat.
Proof.
  repeat split. simpl. lia.
Qed.

(** C2, amended: a control (0x0093) notification is decoded when it has at
    least 23 bytes: the P0 is the slice from offset 12, and the update is
    applied with the type at P0 offset 7, attr_hi at 8, attr_lo at 9 and
    the value at 10.  A control frame of fewer than 23 bytes leaves the
    session untouched.  On the 23-byte frame
    00 00 00 03 12 00 00 93 00 00 00 00 11 00 00 00 00 00 00 00 10 02 04
    the mode becomes 4; received in a session whose mode is not 4,
    [state_initialized] becomes true and exactly one event is emitted. *)
Theorem control_notification_decoded (now : float) (data : bytes) (s : Session) :
  frame_cmd data = CMD_CONTROL ->
  ((23 <= List.length data)%nat ->
     notification_handler now data s =
       update_state now
         (byte_to_Z (byte_at 7 (slice_from 12 data)))
         (byte_to_Z (byte_at 8 (slice_from 12 data)))
         (byte_to_Z (byte_at 9 (slice_from 12 data)))
         (byte_to_Z (byte_at 10 (slice_from 12 data))) s)
  /\ ((List.length data < 23)%nat -> notification_handler now data s = s)
  /\ mode (state (notification_handler now mode_frame s)) = 4
  /\ (mode (state s) <> 4 ->
      state_initialized (state (notification_handler now mode_frame s)) = true
      /\ callbacks (notification_handler now mode_frame s) = S (callbacks s)).
Proof.
  intros Hc. split; [|split].
  - intros Hl. rewrite control_frame_dispatch by (assumption || lia).
    assert (E : List.length (slice_from 12 data) = (List.length data - 12)%nat)
      by apply length_skipn.
    cbv zeta. rewrite E.
    destruct (19 <=? List.length data)%nat eqn:E1; [|apply Nat.leb_gt in E1; lia].
    destruct (11 <=? List.length data - 12)%nat eqn:E2;
      [reflexivity|apply Nat.leb_gt in E2; lia].
  - intros Hl.
    destruct (Nat.lt_ge_cases (List.length data) 8) as [Hs|Hs].
    + unfold notification_handler.
      apply Nat.ltb_lt in Hs. rewrite Hs. reflexivity.
    + rewrite control_frame_dispatch by assumption.
      assert (E : List.length (slice_from 12 data) = (List.length data - 12)%nat)
        by apply length_skipn.
      cbv zeta. rewrite E.
      destruct (19 <=? List.length data)%nat; [|reflexivity].
      destruct (11 <=? List.length data - 12)%nat eqn:E2;
        [apply Nat.leb_le in E2; lia|reflexivity].
  - assert (E0 : notification_handler now mode_frame s
                 = update_state now 0 16 2 4 s) by reflexivity.
    rewrite E0. unfold update_state, apply_attribute.
    change ((0 =? 0) && (16 =? 0) && (2 =? 1)) with false.
    change ((0 =? 0) && (16 =? 0) && (2 =? 4)) with false.
    change ((0 =? 0) && (16 =? 16) && (2 =? 2)) with true.
    cbv iota.
    destruct (mode (state s) =? 4) eqn:Em; simpl.
    + apply Z.eqb_eq in Em. split; [exact Em|]. intros H. contradiction.
    + split; [reflexivity|]. intros _. split; reflexivity.
Qed.

Lemma control_notification_decoded_witness :
  mode (state (notification_handler 0%float mode_frame
                 (new_session test_config 0))) = 4
  /\ state_initialized (state (notification_handler 0%float mode_frame
                                 (new_session test_config 0))) = true
  /\ callbacks (notification_handler 0%float mode_frame
                  (new_session test_config 0)) = 1%nat.
Proof.
  destruct (control_notification_decoded 0%float mode_frame
              (new_session test_config 0)) as (_ & _ & Hm & Hs).
  - reflexivity.
  - split; [exact Hm|]. apply Hs. simpl. lia.
Defined.

(** ** Command path *)

Lemma byte_of_Z_inv (z : Z) (b : byte) :
  byte_of_Z z = Ret b -> byte_to_Z b = z /\ 0 <= z < 256.
Proof.
  unfold byte_of_Z. destruct (z <? 0) eqn:E; [discriminate|].
  apply Z.ltb_ge in E.
  destruct (Byte.of_N (Z.to_N z)) as [b'|] eqn:Eb; [|discriminate].
  intros H. injection H as <-.
  apply Byte.to_of_N in Eb. pose proof (Byte.to_N_bounded b').
  unfold byte_to_Z. rewrite Eb. lia.
Qed.

Lemma to_bytes4_inv (n : Z) (l : bytes) :
  to_bytes4 n = Ret l ->
  0 <= n < 4294967296
  /\ exists b3 b2 b1 b0, l = [b3; b2; b1; b0] /\ from_bytes_big l = n.
Proof.
  intros H.
  assert (R : 0 <= n < 4294967296).
  { unfold to_bytes4 in H.
    destruct ((n <? 0) || (4294967296 <=? n)) eqn:E; [discriminate|].
    apply orb_false_elim in E. destruct E as [E1 E2].
    apply Z.ltb_ge in E1. apply Z.leb_gt in E2. lia. }
  split; [exact R|].
  destruct (to_bytes4_ok n R) as (b3 & b2 & b1 & b0 & E & V).
  rewrite E in H. injection H as <-.
  exists b3, b2, b1, b0. split; [reflexivity|exact V].
Qed.

(** Every control frame that gets built has the same shape. *)
Lemma control_packet_inv (sn : Z) (a : attr) (v : Z) (packet : bytes) :
  control_packet sn a v = Ret packet ->
  exists b3 b2 b1 b0 b7 b8 b9 b10,
    packet = [x00; x00; x00; x03; x12; x00; x00; x93; b3; b2; b1; b0;
              x11; x00; x00; x00; x00; x00; x00; b7; b8; b9; b10]
    /\ from_bytes_big [b3; b2; b1; b0] = sn
    /\ (byte_to_Z b7, byte_to_Z b8, byte_to_Z b9) = a
    /\ byte_to_Z b10 = v.
Proof.
  destruct a as [[t h] l]. unfold control_packet, make_write_p0.
  destruct (byte_of_Z t) as [b7|] eqn:E7; [|discriminate].
  destruct (byte_of_Z h) as [b8|] eqn:E8; [|discriminate].
  destruct (byte_of_Z l) as [b9|] eqn:E9; [|discriminate].
  destruct (byte_of_Z v) as [b10|] eqn:E10; [|discriminate].
  cbn [bind].
  destruct (to_bytes4 sn) as [sn_b|] eqn:E4; [|discriminate].
  cbn [bind].
  destruct (to_bytes4_inv _ _ E4) as (_ & b3 & b2 & b1 & b0 & -> & V).
  intros H. vm_compute in H. injection H as <-.
  exists b3, b2, b1, b0, b7, b8, b9, b10.
  apply byte_of_Z_inv in E7, E8, E9, E10.
  destruct E7 as [<- _], E8 as [<- _], E9 as [<- _], E10 as [<- _].
  repeat split. exact V.
Qed.

Lemma control_packet_ok (sn : Z) (a : attr) (v : Z) :
  attr_fits a -> 0 <= v < 256 -> 0 <= sn < 4294967296 ->
  exists packet, control_packet sn a v = Ret packet.
Proof.
  destruct a as [[t h] l]. intros (Ht & Hh & Hl) Hv Hs.
  unfold control_packet, make_write_p0.
  destruct (byte_of_Z_ok t Ht) as (b7 & -> & _).
  destruct (byte_of_Z_ok h Hh) as (b8 & -> & _).
  destruct (byte_of_Z_ok l Hl) as (b9 & -> & _).
  destruct (byte_of_Z_ok v Hv) as (b10 & -> & _).
  destruct (to_bytes4_ok sn Hs) as (b3 & b2 & b1 & b0 & -> & _).
  eexists. vm_compute. reflexivity.
Qed.

Lemma control_packet_fields (sn : Z) (a : attr) (v : Z) (packet : bytes) :
  control_packet sn a v = Ret packet ->
  List.length packet = 23%nat
  /\ frame_cmd packet = CMD_CONTROL
  /\ frame_serial packet = sn
  /\ p0_value packet = v
  /\ 0 <= v < 256.
Proof.
  intros H.
  destruct (control_packet_inv _ _ _ _ H)
    as (b3 & b2 & b1 & b0 & b7 & b8 & b9 & b10 & -> & Vs & _ & Vv).
  repeat split; try reflexivity; try assumption;
    subst v; apply byte_to_Z_range.
Qed.

(** What [_send_command] does once the guard is passed and the frame is
    built: one write, the serial already incremented, the result decided
    by the transport. *)
Lemma send_command_ready (tr : Transport) (a : attr) (v : Z) (s : Session)
    (packet : bytes) :
  ready s ->
  control_packet (command_sn s) a v = Ret packet ->
  send_command tr a v s =
    (match write_gatt_char tr packet with
     | Ret _ => Ret true
     | Raise BleakError => Ret false
     | Raise e => Raise e
     end,
     [OpWrite packet],
     with_command_sn (command_sn s + 1) s).
Proof.
  intros [Ha Hc] E. unfold send_command. rewrite Ha, Hc, E. simpl.
  destruct (write_gatt_char tr packet) as [u|e]; [reflexivity|].
  destruct e; reflexivity.
Qed.

(** Every way [_send_command] can end. *)
Lemma send_command_cases (tr : Transport) (a : attr) (v : Z) (s : Session) :
  (send_command tr a v s = (Ret false, [], s) /\ ~ ready s)
  \/ (exists e, send_command tr a v s = (Raise e, [], s)
        /\ control_packet (command_sn s) a v = Raise e /\ ready s)
  \/ (exists packet,
        ready s
        /\ control_packet (command_sn s) a v = Ret packet
        /\ send_command tr a v s =
             (match write_gatt_char tr packet with
              | Ret _ => Ret true
              | Raise BleakError => Ret false
              | Raise e => Raise e
              end,
              [OpWrite packet],
              with_command_sn (command_sn s + 1) s)).
Proof.
  destruct (authenticated s) eqn:Ha.
  - destruct (client_connected s) eqn:Hc.
    + destruct (control_packet (command_sn s) a v) as [packet|e] eqn:E.
      * right. right. exists packet.
        assert (R : ready s) by (split; assumption).
        repeat split; try assumption.
        apply send_command_ready; assumption.
      * right. left. exists e. unfold send_command.
        rewrite Ha, Hc, E. repeat split; assumption.
    + left. unfold send_command. rewrite Ha, Hc. split; [reflexivity|].
      intros [_ H]. congruence.
  - left. unfold send_command. rewrite Ha. split; [reflexivity|].
    intros [H _]. congruence.
Qed.

(** On a connected, authenticated session whose transport rejects the
    write, [_send_command] returns [False] and the serial has moved from 1
    to 2 all the same. *)
Lemma serial_incremented_on_failed_write :
  fst (fst (send_command failing_transport ATTR_POWER 1 ready_session)) = Ret false
  /\ command_sn ready_session = 1
  /\ command_sn (snd (send_command failing_transport ATTR_POWER 1 ready_session)) = 2
  /\ command_sn (snd (send_command failing_transport ATTR_POWER 1 ready_session))
     <> command_sn ready_session.
Proof.
  repeat split. vm_compute. discriminate.
Qed.

(** C1, amended: the serial is incremented by exactly one as soon as the
    frame is built, before the write is handed to the transport.  A call
    that succeeds leaves the serial one higher; so does a call whose write
    raises [BleakError], which returns failure.  The serial is unchanged
    exactly when no write is attempted.  On a connected,
    authenticated session, with an attribute and a value that fit a byte
    and a serial that fits four, the write is attempted, carries the old
    serial, and the call succeeds when the transport accepts it. *)
Theorem send_command_serial (tr : Transport) (a : attr) (v : Z)
    (s s' : Session) (r : result bool) (ops : list op) :
  send_command tr a v s = (r, ops, s') ->
  (r = Ret true -> command_sn s' = command_sn s + 1)
  /\ (forall packet, In (OpWrite packet) ops ->
        write_gatt_char tr packet = Raise BleakError ->
        r = Ret false /\ command_sn s' = command_sn s + 1)
  /\ (ops = [] -> s' = s)
  /\ (ops <> [] -> command_sn s' = command_sn s + 1)
  /\ (ready s -> attr_fits a -> 0 <= v < 256 -> serial_fits s ->
      exists packet,
        ops = [OpWrite packet]
        /\ frame_serial packet = command_sn s
        /\ (write_gatt_char tr packet = Ret tt -> r = Ret true)).
Proof.
  intros E.
  destruct (send_command_cases tr a v s)
    as [[E1 Hn]|[(e & E1 & Ep & Hr)|(packet & Hr & Ep & E1)]];
    rewrite E1 in E; injection E as <- <- <-.
  - split; [discriminate|].
    split; [intros packet []|].
    split; [reflexivity|].
    split; [intros H; contradiction|].
    intros H. contradiction.
  - split; [discriminate|].
    split; [intros packet []|].
    split; [reflexivity|].
    split; [intros H; contradiction|].
    intros _ Ha Hv Hs. destruct (control_packet_ok _ a v Ha Hv Hs) as (q & Eq).
    congruence.
  - assert (Hsn : command_sn (with_command_sn (command_sn s + 1) s)
                  = command_sn s + 1) by reflexivity.
    split; [intros _; exact Hsn|].
    split.
    { intros q [H|[]] Hw. injection H as <-. rewrite Hw. split; [reflexivity|exact Hsn]. }
    split; [discriminate|].
    split; [intros _; exact Hsn|].
    intros _ _ _ _. exists packet.
    split; [reflexivity|].
    split; [apply (control_packet_fields _ _ _ _ Ep)|].
    intros ->. reflexivity.
Qed.

Lemma send_command_serial_witness :
  command_sn (snd (send_command good_transport ATTR_FLOW 80 ready_session))
  = command_sn ready_session + 1.
Proof.
  destruct (send_command good_transport ATTR_FLOW 80 ready_session)
    as [[r ops] s'] eqn:E.
  destruct (send_command_serial _ _ _ _ _ _ _ E) as (_ & _ & _ & H & _).
  apply H. vm_compute in E. injection E as _ <- _. discriminate.
Defined.

(** A numeric setter sends the clamped value. *)
Lemma clamped_command (tr : Transport) (a : attr) (lo hi v : Z)
    (s s' : Session) (r : result bool) (ops : list op) :
  lo <= hi ->
  send_command tr a (Z.max lo (Z.min hi v)) s = (r, ops, s') ->
  (forall packet, In packet (written ops) ->
     (v < lo -> p0_value packet = lo)
     /\ (hi < v -> p0_value packet = hi)
     /\ (lo <= v <= hi -> p0_value packet = v))
  /\ (ready s -> attr_fits a -> 0 <= lo -> hi <= 255 -> serial_fits s ->
      exists packet, ops = [OpWrite packet]).
Proof.
  intros Hb E.
  destruct (send_command_cases tr a (Z.max lo (Z.min hi v)) s)
    as [[E1 Hn]|[(e & E1 & Ep & Hr)|(packet & Hr & Ep & E1)]];
    rewrite E1 in E; injection E as <- <- <-.
  - split; [intros packet []|]. intros H. contradiction.
  - split; [intros packet []|]. intros _ Ha H0 H255 Hs.
    destruct (control_packet_ok (command_sn s) a (Z.max lo (Z.min hi v)) Ha)
      as (q & Eq); [lia|exact Hs|congruence].
  - split.
    + intros q [<-|[]].
      destruct (control_packet_fields _ _ _ _ Ep) as (_ & _ & _ & -> & _).
      repeat split; lia.
    + intros _ _ _ _ _. exists packet. reflexivity.
Qed.

(** C6: with [flow_min <= flow_max], every frame that [set_flow(v)] hands
    to the transport carries at P0 offset 10 [flow_min] when [v] is below
    it, [flow_max] when [v] is above it, and [v] itself in between; and on
    a connected, authenticated session whose bounds fit a byte the frame is
    indeed sent.  The same for [set_frequency] with its own bounds. *)
Theorem numeric_setters_clamp (tr : Transport) (v : Z) (s : Session) :
  (flow_min (config s) <= flow_max (config s) ->
   (forall packet, In packet (written (snd (fst (set_flow tr v s)))) ->
      (v < flow_min (config s) -> p0_value packet = flow_min (config s))
      /\ (flow_max (config s) < v -> p0_value packet = flow_max (config s))
      /\ (flow_min (config s) <= v <= flow_max (config s) ->
          p0_value packet = v))
   /\ (ready s -> 0 <= flow_min (config s) -> flow_max (config s) <= 255 ->
       serial_fits s ->
       exists packet, snd (fst (set_flow tr v s)) = [OpWrite packet]))
  /\
  (frequency_min (config s) <= frequency_max (config s) ->
   (forall packet, In packet (written (snd (fst (set_frequency tr v s)))) ->
      (v < frequency_min (config s) -> p0_value packet = frequency_min (config s))
      /\ (frequency_max (config s) < v ->
          p0_value packet = frequency_max (config s))
      /\ (frequency_min (config s) <= v <= frequency_max (config s) ->
          p0_value packet = v))
   /\ (ready s -> 0 <= frequency_min (config s) ->
       frequency_max (config s) <= 255 -> serial_fits s ->
       exists packet, snd (fst (set_frequency tr v s)) = [OpWrite packet])).
Proof.
  split; intros Hb.
  - unfold set_flow.
    destruct (send_command tr ATTR_FLOW
                (Z.max (flow_min (config s)) (Z.min (flow_max (config s)) v)) s)
      as [[r ops] s'] eqn:E.
    destruct (clamped_command _ _ _ _ _ _ _ _ _ Hb E) as [H1 H2].
    split; [exact H1|]. intros Hr H0 H255 Hs.
    apply H2; try assumption. unfold attr_fits, ATTR_FLOW. lia.
  - unfold set_frequency.
    destruct (send_command tr ATTR_FREQUENCY
                (Z.max (frequency_min (config s))
                   (Z.min (frequency_max (config s)) v)) s)
      as [[r ops] s'] eqn:E.
    destruct (clamped_command _ _ _ _ _ _ _ _ _ Hb E) as [H1 H2].
    split; [exact H1|]. intros Hr H0 H255 Hs.
    apply H2; try assumption. unfold attr_fits, ATTR_FREQUENCY. lia.
Qed.

(** Scenario S3: bounds 30 and 100, [set_flow(10)] sends a frame that ends
    with 0x1e. *)
Lemma numeric_setters_clamp_witness :
  exists packet,
    snd (fst (set_flow good_transport 10 ready_session)) = [OpWrite packet]
    /\ p0_value packet = 30.
Proof.
  destruct (numeric_setters_clamp good_transport 10 ready_session)
    as [Hflow _].
  destruct Hflow as [H1 H2]; [simpl; lia|].
  destruct H2 as (packet & E).
  - split; reflexivity.
  - simpl. lia.
  - simpl. lia.
  - unfold serial_fits. simpl. lia.
  - exists packet. split; [exact E|].
    apply H1; [rewrite E; simpl; left; reflexivity|simpl; lia].
Defined.

Lemma in_MODES_known (v : Z) : in_MODES v = true <-> In v known_modes.
Proof.
  unfold in_MODES, known_modes, MODES, modes_get. split.
  - intros H.
    destruct (0 =? v) eqn:E0; [apply Z.eqb_eq in E0; simpl; auto|].
    destruct (1 =? v) eqn:E1; [apply Z.eqb_eq in E1; simpl; auto|].
    destruct (2 =? v) eqn:E2; [apply Z.eqb_eq in E2; simpl; auto|].
    destruct (4 =? v) eqn:E4; [apply Z.eqb_eq in E4; simpl; auto 6|].
    destruct (6 =? v) eqn:E6; [apply Z.eqb_eq in E6; simpl; auto 6|].
    discriminate.
  - intros [<-|[<-|[<-|[<-|[<-|[]]]]]]; reflexivity.
Qed.

(** C7: [set_mode(v)] hands a frame to the transport only if [v] is one of
    0, 1, 2, 4, 6, and on a connected, authenticated session it does so for
    each of them: a control frame with [v] at P0 offset 10.  For any other
    [v] it returns [False], writes nothing and leaves the session as it
    was. *)
Theorem set_mode_validity (tr : Transport) (v : Z) (s s' : Session)
    (r : result bool) (ops : list op) :
  set_mode tr v s = (r, ops, s') ->
  (~ In v known_modes -> r = Ret false /\ ops = [] /\ s' = s)
  /\ (ops <> [] -> In v known_modes)
  /\ (ready s -> serial_fits s ->
      (In v known_modes <->
       exists packet,
         ops = [OpWrite packet]
         /\ frame_cmd packet = CMD_CONTROL
         /\ p0_value packet = v)).
Proof.
  intros E. unfold set_mode in E.
  destruct (in_MODES v) eqn:Em.
  - assert (Hk : In v known_modes) by (apply in_MODES_known; exact Em).
    split; [intros H; contradiction|].
    split; [intros _; exact Hk|].
    intros Hr Hs. split; [intros _|intros _; exact Hk].
    destruct (control_packet_ok (command_sn s) ATTR_MODE v) as (packet & Ep).
    + unfold attr_fits, ATTR_MODE. lia.
    + unfold known_modes in Hk. simpl in Hk. intuition lia.
    + exact Hs.
    + rewrite (send_command_ready tr _ _ _ _ Hr Ep) in E.
      injection E as _ <- _. exists packet.
      destruct (control_packet_fields _ _ _ _ Ep) as (_ & Hc & _ & Hv & _).
      repeat split; assumption.
  - assert (Hk : ~ In v known_modes).
    { intros H. apply in_MODES_known in H. congruence. }
    injection E as <- <- <-.
    split; [intros _; repeat split|].
    split; [intros H; contradiction|].
    intros _ _. split; [intros H; contradiction|].
    intros (packet & H & _). discriminate.
Qed.

Lemma set_mode_validity_witness :
  (exists packet,
     snd (fst (set_mode good_transport 4 ready_session)) = [OpWrite packet]
     /\ p0_value packet = 4)
  /\ set_mode good_transport 3 ready_session = (Ret false, [], ready_session).
Proof.
  split.
  - destruct (set_mode good_transport 4 ready_session) as [[r ops] s'] eqn:E.
    destruct (set_mode_validity _ _ _ _ _ _ E) as (_ & _ & H).
    destruct H as [H _].
    + split; reflexivity.
    + unfold serial_fits. simpl. lia.
    + destruct H as (packet & Eo & _ & Hv).
      * unfold known_modes. simpl. auto.
      * exists packet. split; assumption.
  - destruct (set_mode good_transport 3 ready_session) as [[r ops] s'] eqn:E.
    destruct (set_mode_validity _ _ _ _ _ _ E) as (H & _).
    destruct H as (-> & -> & ->).
    + unfold known_modes. simpl. intuition lia.
    + reflexivity.
Defined.

(** ** Broker commands *)

Lemma str_in_In (x : string) (l : list string) : str_in x l = true <-> In x l.
Proof.
  induction l as [|y l IH]; simpl.
  - split; [discriminate|contradiction].
  - rewrite orb_true_iff, IH, String.eqb_eq. split; intros [H|H]; auto.
Qed.

(** The payload [on] followed by a space: stripped and lower-cased it is
    [on], yet [_handle_command] calls [set_power(False)]. *)
Lemma padded_payload_is_off :
  spec_payload_on "on " = true
  /\ payload_on "on " = false
  /\ command_call no_number "power" "on " = Ret (Some (CallSetPower false)).
Proof. repeat split. Qed.

(** C4, amended: for the entity [power] (and likewise [feed]) the payload
    is taken as true if and only if its lower-cased form, as it is, without
    stripping, is one of [on], [true], [1]; [set_power] (resp. [set_feed])
    is called with exactly that boolean. *)
Theorem switch_payload_parsed (int_of_float_str : string -> result Z)
    (tr : Transport) (pump : Session) (payload : string) :
  (payload_on payload = true
   <-> In (lower payload) ["on"%string; "true"%string; "1"%string])
  /\ command_call int_of_float_str "power" payload
     = Ret (Some (CallSetPower (payload_on payload)))
  /\ command_call int_of_float_str "feed" payload
     = Ret (Some (CallSetFeed (payload_on payload)))
  /\ handle_command int_of_float_str tr pump "power" payload
     = (snd (fst (set_power tr (payload_on payload) pump)),
        snd (set_power tr (payload_on payload) pump))
  /\ handle_command int_of_float_str tr pump "feed" payload
     = (snd (fst (set_feed tr (payload_on payload) pump)),
        snd (set_feed tr (payload_on payload) pump)).
Proof.
  split; [apply str_in_In|].
  split; [reflexivity|]. split; [reflexivity|].
  unfold handle_command. cbn [command_call String.eqb Ascii.eqb Bool.eqb run_call].
  split.
  - destruct (set_power tr (payload_on payload) pump) as [[r ops] s']. reflexivity.
  - destruct (set_feed tr (payload_on payload) pump) as [[r ops] s']. reflexivity.
Qed.

Lemma switch_payload_parsed_witness :
  command_call no_number "power" "ON" = Ret (Some (CallSetPower true))
  /\ command_call no_number "feed" "off" = Ret (Some (CallSetFeed false)).
Proof.
  split.
  - apply (switch_payload_parsed no_number good_transport ready_session "ON").
  - apply (switch_payload_parsed no_number good_transport ready_session "off").
Defined.

(** ** State publishing *)

Lemma append_cancel_l (a x y : string) :
  (a ++ x = a ++ y)%string -> x = y.
Proof.
  induction a as [|c a IH]; simpl; intros H; [exact H|].
  injection H as H. apply IH. exact H.
Qed.

Lemma connected_topic_distinct (b : Bridge) (pump : Session) (e : string) :
  In e value_entities ->
  state_topic b pump e <> state_topic b pump "connected".
Proof.
  unfold state_topic. intros He H.
  apply append_cancel_l in H. apply append_cancel_l in H.
  apply append_cancel_l in H. apply append_cancel_l in H.
  unfold value_entities in He. simpl in He.
  destruct He as [<-|[<-|[<-|[<-|[<-|[<-|[]]]]]]]; discriminate.
Qed.

(** With the broker client absent or not connected, [_publish_state]
    publishes nothing at all for a pump that was never initialised: not
    even [connected/state]. *)
Lemma nothing_published_when_broker_down :
  state_initialized (state (new_session test_config 0)) = false
  /\ fst (publish_state no_format "2026-01-01" 0%float
            (mkBridge (Some (mkMqttClient false)) None)
            (new_session test_config 0)) = []
  /\ fst (publish_state no_format "2026-01-01" 0%float
            (mkBridge None None) (new_session test_config 0)) = [].
Proof. repeat split. Qed.

(** C8, amended: for a pump whose [state_initialized] is false, an
    invocation of [_publish_state] with the broker client connected
    publishes exactly one message, on [connected/state], and leaves the
    pump as it was; with the broker client absent or disconnected it
    publishes nothing.  For any pump, a message on the power, feed, flow,
    frequency, mode or runtime state topic is published only when
    [state_initialized] is true, and then all seven topics are published. *)
Theorem publish_state_gated (format_2f : float -> string) (today : string)
    (now : float) (b : Bridge) (pump : Session) :
  (state_initialized (state pump) = false ->
   publish_state format_2f today now b pump =
     (if broker_up b
      then [mkMessage (state_topic b pump "connected")
              (on_off (connected (state pump))) true]
      else [],
      pump))
  /\ (forall m e,
        In m (fst (publish_state format_2f today now b pump)) ->
        In e value_entities ->
        topic m = state_topic b pump e ->
        state_initialized (state pump) = true)
  /\ (state_initialized (state pump) = true -> broker_up b = true ->
      map topic (fst (publish_state format_2f today now b pump))
      = map (state_topic b pump) ("connected"%string :: value_entities)).
Proof.
  assert (H0 : state_initialized (state pump) = false ->
               publish_state format_2f today now b pump =
                 (if broker_up b
                  then [mkMessage (state_topic b pump "connected")
                          (on_off (connected (state pump))) true]
                  else [],
                  pump)).
  { intros Hi. unfold publish_state, broker_up.
    destruct (mqtt_client b) as [c|]; [|reflexivity].
    destruct (mqtt_is_connected c); [|reflexivity].
    simpl. rewrite Hi. reflexivity. }
  split; [exact H0|]. split.
  - intros m e Hm He Ht.
    destruct (state_initialized (state pump)) eqn:Hi; [reflexivity|].
    rewrite (H0 eq_refl) in Hm.
    destruct (broker_up b); simpl in Hm; [|contradiction].
    destruct Hm as [<-|[]]. simpl in Ht. symmetry in Ht.
    exfalso. exact (connected_topic_distinct b pump e He Ht).
  - intros Hi Hb. unfold publish_state, broker_up in *.
    destruct (mqtt_client b) as [c|]; [|discriminate].
    rewrite Hb, Hi. reflexivity.
Qed.

Lemma publish_state_gated_witness :
  publish_state no_format "2026-01-01" 0%float
    (mkBridge (Some (mkMqttClient true)) None) (new_session test_config 0)
  = ([mkMessage "jebao/test_pump/connected/state" "OFF" true],
     new_session test_config 0).
Proof.
  apply (publish_state_gated no_format "2026-01-01" 0%float
           (mkBridge (Some (mkMqttClient true)) None)
           (new_session test_config 0)).
  reflexivity.
Defined.

(** ** Reconnect back-off *)

Local Open Scope Q_scope.








Local Close Scope Q_scope.


(** ** Connect handshake *)

Lemma wait_authenticated_ok (sched : nat -> Session -> Session)
    (n k : nat) (s : Session) :
  fst (wait_authenticated sched n k s) = true <->
  exists i, (i < n)%nat /\ authenticated (sleeps sched i k s) = true.
Proof.
  revert k s. induction n as [|n IH]; intros k s; simpl.
  - split; [discriminate|]. intros (i & Hi & _). lia.
  - destruct (authenticated s) eqn:Ha.
    + split; [intros _|reflexivity].
      exists 0%nat. split; [lia|exact Ha].
    + rewrite IH. split.
      * intros (i & Hi & Hai). exists (S i). split; [lia|exact Hai].
      * intros (i & Hi & Hai).
        destruct i as [|i]; [simpl in Hai; congruence|].
        exists i. split; [lia|exact Hai].
Qed.

Lemma wait_authenticated_state (sched : nat -> Session -> Session)
    (n k : nat) (s : Session) :
  fst (wait_authenticated sched n k s) = true ->
  authenticated (snd (wait_authenticated sched n k s)) = true.
Proof.
  revert k s. induction n as [|n IH]; intros k s; simpl.
  - discriminate.
  - destruct (authenticated s) eqn:Ha; [intros _; exact Ha|apply IH].
Qed.

Lemma wait_authenticated_false (sched : nat -> Session -> Session)
    (n k : nat) (s s' : Session) :
  wait_authenticated sched n k s = (false, s') ->
  s' = sleeps sched n k s.
Proof.
  revert k s. induction n as [|n IH]; intros k s; simpl.
  - intros H. injection H as <-. reflexivity.
  - destruct (authenticated s); [discriminate|]. apply IH.
Qed.

Lemma cleanup_connection_client (sched : nat -> Session -> Session)
    (k : nat) (s : Session) :
  client (snd (cleanup_connection sched k s)) = None.
Proof.
  unfold cleanup_connection. simpl.
  destruct (client s) eqn:E; simpl; [reflexivity|exact E].
Qed.

Lemma cleanup_connection_ops (sched : nat -> Session -> Session)
    (k : nat) (s : Session) :
  client s <> None -> fst (cleanup_connection sched k s) = [OpDisconnect].
Proof.
  unfold cleanup_connection. simpl.
  destruct (client s); [reflexivity|contradiction].
Qed.

Lemma connect_failed_result (sched : nat -> Session -> Session)
    (ops : list op) (k : nat) (s : Session) :
  ops <> [] ->
  fst (fst (connect_failed sched ops k s)) = false
  /\ client (snd (connect_failed sched ops k s)) = None
  /\ snd (fst (connect_failed sched ops k s)) <> [].
Proof.
  intros Hn. unfold connect_failed.
  pose proof (cleanup_connection_client sched k s) as Hc.
  destruct (cleanup_connection sched k s) as [ops' s']. simpl in *.
  repeat split; [exact Hc|].
  intros H. apply app_eq_nil in H. destruct H as [H _]. contradiction.
Qed.

Lemma connect_connected (tr : Transport) (sched : nat -> Session -> Session)
    (s : Session) :
  client_connected s = true -> connect tr sched s = (true, [], s).
Proof. intros H. unfold connect. rewrite H. reflexivity. Qed.

Lemma connect_handshake (tr : Transport) (sched : nat -> Session -> Session)
    (s : Session) :
  client_connected s = false ->
  handshake_sent tr ->
  connect tr sched s =
    (let '(ok, s4) := wait_authenticated sched 50 3 (after_handshake sched s) in
     if ok
     then (true, [OpOpen; OpConnect; OpStartNotify; OpWrite get_passcode_frame], s4)
     else connect_failed sched
            [OpOpen; OpConnect; OpStartNotify; OpWrite get_passcode_frame] 53 s4).
Proof.
  intros Hc (H1 & H2 & H3 & H4). unfold connect. rewrite Hc, H1, H2, H3.
  change (make_packet CMD_GET_PASSCODE []) with (Ret get_passcode_frame).
  cbv iota. rewrite H4. reflexivity.
Qed.

Lemma connect_not_sent (tr : Transport) (sched : nat -> Session -> Session)
    (s : Session) :
  client_connected s = false ->
  ~ handshake_sent tr ->
  fst (fst (connect tr sched s)) = false
  /\ client (snd (connect tr sched s)) = None
  /\ snd (fst (connect tr sched s)) <> [].
Proof.
  intros Hc Hn. unfold connect. rewrite Hc.
  destruct (open_client tr) as [[]|e1] eqn:E1;
    [|apply connect_failed_result; discriminate].
  destruct (gatt_connect tr) as [[]|e2] eqn:E2;
    [|apply connect_failed_result; discriminate].
  destruct (start_notify tr) as [[]|e3] eqn:E3;
    [|apply connect_failed_result; discriminate].
  change (make_packet CMD_GET_PASSCODE []) with (Ret get_passcode_frame).
  cbv iota.
  destruct (write_gatt_char tr get_passcode_frame) as [[]|e4] eqn:E4;
    [|apply connect_failed_result; discriminate].
  exfalso. apply Hn. repeat split; assumption.
Qed.

Lemma handshake_sent_dec (tr : Transport) :
  handshake_sent tr \/ ~ handshake_sent tr.
Proof.
  unfold handshake_sent.
  destruct (open_client tr) as [[]|]; [|right; intros (H & _); discriminate].
  destruct (gatt_connect tr) as [[]|];
    [|right; intros (_ & H & _); discriminate].
  destruct (start_notify tr) as [[]|];
    [|right; intros (_ & _ & H & _); discriminate].
  destruct (write_gatt_char tr get_passcode_frame) as [[]|];
    [|right; intros (_ & _ & _ & H); discriminate].
  left. repeat split.
Qed.

(** A session whose client reports connected but which was never
    authenticated: [connect()] returns [True] at once, without a BLE call. *)
Lemma connect_succeeds_unauthenticated :
  authenticated linked_session = false
  /\ connect good_transport idle linked_session = (true, [], linked_session).
Proof. split; reflexivity. Qed.

(** C3, amended: [connect()] returns success at once, without a BLE call,
    if and only if the client of the session exists and reports connected,
    whether or not the session is authenticated.  Otherwise it returns
    success exactly when the link is opened, the subscription and the
    passcode request go through and [authenticated] is found true at one of
    the 50 polls of the wait, and the session is then authenticated; when
    it returns failure the client has been dropped, and on a timeout the
    client that was still there has been disconnected. *)
Theorem connect_outcome (tr : Transport) (sched : nat -> Session -> Session)
    (s : Session) :
  ((fst (fst (connect tr sched s)) = true /\ snd (fst (connect tr sched s)) = [])
   <-> client_connected s = true)
  /\ (client_connected s = true -> connect tr sched s = (true, [], s))
  /\ (client_connected s = false ->
      (fst (fst (connect tr sched s)) = true
       <-> handshake_sent tr
           /\ exists i, (i < 50)%nat /\ authenticated (at_poll sched s i) = true))
  /\ (client_connected s = false ->
      fst (fst (connect tr sched s)) = true ->
      authenticated (snd (connect tr sched s)) = true)
  /\ (fst (fst (connect tr sched s)) = false ->
      client (snd (connect tr sched s)) = None)
  /\ (client_connected s = false ->
      handshake_sent tr ->
      (forall i, (i < 50)%nat -> authenticated (at_poll sched s i) = false) ->
      fst (fst (connect tr sched s)) = false
      /\ (client (at_poll sched s 50) <> None ->
          In OpDisconnect (snd (fst (connect tr sched s))))).
Proof.
  destruct (client_connected s) eqn:Hc.
  - rewrite (connect_connected tr sched s Hc). simpl.
    repeat split; try discriminate; try reflexivity.
  - destruct (handshake_sent_dec tr) as [Hs|Hn].
    + pose proof (wait_authenticated_ok sched 50 3 (after_handshake sched s))
        as Hok.
      pose proof (wait_authenticated_state sched 50 3 (after_handshake sched s))
        as Hst.
      pose proof (wait_authenticated_false sched 50 3 (after_handshake sched s))
        as Hto.
      rewrite (connect_handshake tr sched s Hc Hs).
      destruct (wait_authenticated sched 50 3 (after_handshake sched s))
        as [[|] s4]; simpl in Hok, Hst.
      * simpl.
        split; [split; [intros [_ H]; discriminate|discriminate]|].
        split; [discriminate|].
        split.
        { intros _. split; [intros _|reflexivity].
          split; [exact Hs|]. apply Hok. reflexivity. }
        split; [intros _ _; apply Hst; reflexivity|].
        split; [discriminate|].
        intros _ _ Hall. exfalso.
        destruct (proj1 Hok eq_refl) as (i & Hi & Ha).
        unfold at_poll in Hall. rewrite (Hall i Hi) in Ha. discriminate.
      * pose proof (connect_failed_result sched
                      [OpOpen; OpConnect; OpStartNotify; OpWrite get_passcode_frame]
                      53 s4 ltac:(discriminate)) as (Hf & Hcl & Hne).
        split.
        { split; [intros [H _]; rewrite Hf in H; discriminate|discriminate]. }
        split; [discriminate|].
        split.
        { intros _. split; [intros H; rewrite Hf in H; discriminate|].
          intros [_ Hex]. apply Hok in Hex. discriminate. }
        split; [intros _ H; rewrite Hf in H; discriminate|].
        split; [intros _; exact Hcl|].
        intros _ _ _. split; [exact Hf|].
        intros Hcli. rewrite (Hto s4 eq_refl).
        unfold connect_failed.
        pose proof (cleanup_connection_ops sched 53
                      (sleeps sched 50 3 (after_handshake sched s)) Hcli) as Ho.
        destruct (cleanup_connection sched 53
                    (sleeps sched 50 3 (after_handshake sched s))) as [ops' s'].
        simpl in Ho. subst ops'. simpl. auto 10.
    + destruct (connect_not_sent tr sched s Hc Hn) as (Hf & Hcl & Hne).
      split.
      { split; [intros [H _]; rewrite Hf in H; discriminate|discriminate]. }
      split; [discriminate|].
      split.
      { intros _. split; [intros H; rewrite Hf in H; discriminate|].
        intros [Hs _]. contradiction. }
      split; [intros _ H; rewrite Hf in H; discriminate|].
      split; [intros _; exact Hcl|].
      intros _ Hs. contradiction.
Qed.

(** Scenario S1: the handshake goes through and [connect()] succeeds at the
    second poll. *)
Lemma connect_outcome_witness :
  fst (fst (connect good_transport (deliver 0%float s1_inbox)
              (new_session test_config 0))) = true.
Proof.
  destruct (connect_outcome good_transport (deliver 0%float s1_inbox)
              (new_session test_config 0)) as (_ & _ & H & _).
  apply H; [reflexivity|].
  split; [repeat split|].
  exists 1%nat. split; [lia|reflexivity].
Defined.

(** ** The test suite and the scenarios, replayed *)

Example test_make_packet : make_packet CMD_GET_PASSCODE [] = Ret get_passcode_frame.
Proof. reflexivity. Qed.

Example test_make_write_p0 :
  make_write_p0 ATTR_POWER 1
  = Ret [x11; x00; x00; x00; x00; x00; x00; x00; x00; x01; x01].
Proof. reflexivity. Qed.

Example test_bidirectional :
  forall v n, In (v, n) MODES -> mode_values_get n MODE_VALUES = Some v.
Proof.
  intros v n H. unfold MODES in H. simpl in H.
  repeat (destruct H as [H|H]; [injection H as <- <-; reflexivity|]).
  contradiction.
Qed.

Example test_login_success :
  authenticated
    (notification_handler 0%float
       [x00; x00; x00; x03; x05; x00; x00; x09; x00]
       (new_session test_config 0)) = true.
Proof. reflexivity. Qed.

Example test_login_failure :
  authenticated
    (notification_handler 0%float
       [x00; x00; x00; x03; x05; x00; x00; x09; x01]
       (new_session test_config 0)) = false.
Proof. reflexivity. Qed.

Example test_status_update :
  state_initialized
    (state (notification_handler 0%float
              [x00; x00; x00; x03; x10; x00; x00; x93; x00; x00; x00; x00;
               x00; x00; x00; x00; x00; x00; x00; x00; x80; x00; x65]
              (new_session test_config 0))) = true.
Proof. reflexivity. Qed.

Example test_update_state_no_change :
  update_state 0%float 0 128 0 50 (new_session test_config 0)
  = new_session test_config 0.
Proof. reflexivity. Qed.

Example test_set_flow_clamps_max :
  option_map p0_value
    (hd_error (written (snd (fst (set_flow good_transport 150 ready_session)))))
  = Some 100.
Proof. reflexivity. Qed.

Example test_send_command_bleak_error :
  fst (fst (send_command failing_transport ATTR_POWER 1 ready_session)) = Ret false.
Proof. reflexivity. Qed.

Example test_set_mode_by_name :
  option_map p0_value
    (hd_error (written (snd (fst (set_mode_by_name good_transport "Random"
                                    ready_session)))))
  = Some 4.
Proof. reflexivity. Qed.

Example test_set_mode_by_name_invalid :
  set_mode_by_name good_transport "Invalid" ready_session
  = (Ret false, [], ready_session).
Proof. reflexivity. Qed.

(** Scenario S1: the passcode is stored, a login task is created, and the
    login frame echoes the passcode. *)
Example s1_login_frame :
  send_login good_transport
    (notification_handler 0%float
       [x00; x00; x00; x03; x0b; x00; x00; x07;
        xaa; xbb; xcc; xdd; xee; xff; x11; x22]
       linked_session)
  = (Ret tt,
     [OpWrite [x00; x00; x00; x03; x0b; x00; x00; x08;
               xaa; xbb; xcc; xdd; xee; xff; x11; x22]]).
Proof. reflexivity. Qed.

(** Scenario S3: [set_flow(10)] with bounds 30 and 100 sends serial 1 and a
    frame that ends with 0x1e. *)
Example s3_flow_command_clamp :
  written (snd (fst (set_flow good_transport 10 ready_session)))
  = [[x00; x00; x00; x03; x12; x00; x00; x93; x00; x00; x00; x01;
      x11; x00; x00; x00; x00; x00; x00; x00; x80; x00; x1e]]
  /\ command_sn (snd (set_flow good_transport 10 ready_session)) = 2.
Proof. split; reflexivity. Qed.

(** Scenario S4 with the 23-byte frame: the next publish of [mode/state]
    is [Random]. *)
Example s4_mode_published :
  option_map payload
    (nth_error
       (fst (publish_state no_format "2026-01-01" 0%float
               (mkBridge (Some (mkMqttClient true)) None)
               (notification_handler 0%float mode_frame
                  (new_session test_config 0)))) 5)
  = Some "Random"%string.
Proof. reflexivity. Qed.

(** * Further properties *)

(** ** Codec: totality and errors *)

Lemma byte_of_Z_out (z : Z) :
  z < 0 \/ 256 <= z -> byte_of_Z z = Raise ValueError.
Proof.
  intros H. unfold byte_of_Z.
  destruct (z <? 0) eqn:E; [reflexivity|].
  apply Z.ltb_ge in E.
  destruct (Byte.of_N (Z.to_N z)) as [b|] eqn:Eb; [|reflexivity].
  apply Byte.to_of_N in Eb. pose proof (Byte.to_N_bounded b). lia.
Qed.

Lemma make_packet_parse (cmd : Z) (payload : bytes) :
  0 <= cmd < 65536 ->
  (List.length payload <= 252)%nat ->
  exists frame,
    make_packet cmd payload = Ret frame
    /\ List.length frame = (8 + List.length payload)%nat
    /\ parse_frame frame = Some (cmd, payload).
Proof.
  intros Hc Hl.
  destruct (make_packet_layout cmd payload Hc Hl) as (lb & hi & lo & E & _ & Vc).
  eexists. split; [exact E|].
  unfold parse_frame, frame_cmd, frame_payload, slice, slice_from.
  simpl. split; [reflexivity|]. rewrite Vc. reflexivity.
Qed.

(** [_make_packet] returns a frame exactly when the payload has at most
    252 bytes and the command fits two bytes; the frame is then 8 bytes
    longer than the payload and decodes to the command and the payload.  A
    longer payload raises [ValueError], whatever the command; otherwise a
    command outside two bytes raises [OverflowError]. *)
Theorem make_packet_total (cmd : Z) (payload : bytes) :
  ((List.length payload <= 252)%nat -> 0 <= cmd < 65536 ->
   exists frame,
     make_packet cmd payload = Ret frame
     /\ List.length frame = (8 + List.length payload)%nat
     /\ parse_frame frame = Some (cmd, payload))
  /\ ((252 < List.length payload)%nat ->
      make_packet cmd payload = Raise ValueError)
  /\ ((List.length payload <= 252)%nat -> cmd < 0 \/ 65536 <= cmd ->
      make_packet cmd payload = Raise OverflowError).
Proof.
  split; [|split].
  - intros Hl Hc. apply make_packet_parse; assumption.
  - intros Hl. unfold make_packet.
    rewrite byte_of_Z_out by lia. reflexivity.
  - intros Hl Hc. unfold make_packet.
    destruct (byte_of_Z_ok (3 + Z.of_nat (List.length payload))) as (lb & -> & _);
      [lia|].
    cbn [bind]. unfold to_bytes2.
    replace ((cmd <? 0) || (65536 <=? cmd)) with true; [reflexivity|].
    symmetry. apply orb_true_iff.
    destruct Hc; [left; apply Z.ltb_lt|right; apply Z.leb_le]; lia.
Qed.

Lemma make_packet_total_witness :
  exists frame,
    make_packet 148 (repeat xff 252) = Ret frame
    /\ List.length frame = 260%nat.
Proof.
  destruct (make_packet_total 148 (repeat xff 252)) as [H _].
  destruct H as (frame & E & L & _).
  - rewrite repeat_length. lia.
  - lia.
  - exists frame. split; [exact E|]. rewrite L, repeat_length. reflexivity.
Defined.

(** ** Inbound attribute update: what is stored *)

Lemma state_of_update (now : float) (t h l v : Z) (s : Session) :
  state (update_state now t h l v s) =
    (let '(p, changed) := apply_attribute now t h l v (state s) in
     if changed then set_state_initialized true p else p).
Proof.
  unfold update_state.
  destruct (apply_attribute now t h l v (state s)) as [p [|]]; reflexivity.
Qed.

(** Whatever the session, after the update of an attribute the field
    holds the value received: the truth value of the byte for power and
    feed, the byte itself for mode, flow and frequency.  Nothing is
    clamped to the configured bounds or to the known modes. *)
Theorem update_state_stores (now : float) (v : Z) (s : Session) :
  power (state (update_state now 0 0 1 v s)) = truthy v
  /\ feed (state (update_state now 0 0 4 v s)) = truthy v
  /\ mode (state (update_state now 0 16 2 v s)) = v
  /\ flow (state (update_state now 0 128 0 v s)) = v
  /\ frequency (state (update_state now 1 0 0 v s)) = v.
Proof.
  rewrite !state_of_update. unfold apply_attribute.
  change ((0 =? 0) && (0 =? 0) && (1 =? 1)) with true.
  change ((0 =? 0) && (0 =? 0) && (4 =? 1)) with false.
  change ((0 =? 0) && (0 =? 0) && (4 =? 4)) with true.
  change ((0 =? 0) && (16 =? 0) && (2 =? 1)) with false.
  change ((0 =? 0) && (16 =? 0) && (2 =? 4)) with false.
  change ((0 =? 0) && (16 =? 16) && (2 =? 2)) with true.
  change ((0 =? 0) && (128 =? 0) && (0 =? 1)) with false.
  change ((0 =? 0) && (128 =? 0) && (0 =? 4)) with false.
  change ((0 =? 0) && (128 =? 16) && (0 =? 2)) with false.
  change ((0 =? 0) && (128 =? 128) && (0 =? 0)) with true.
  change ((1 =? 0) && (0 =? 0) && (0 =? 1)) with false.
  change ((1 =? 0) && (0 =? 0) && (0 =? 4)) with false.
  change ((1 =? 0) && (0 =? 16) && (0 =? 2)) with false.
  change ((1 =? 0) && (0 =? 128) && (0 =? 0)) with false.
  change ((1 =? 1) && (0 =? 0) && (0 =? 0)) with true.
  cbv iota.
  repeat split.
  - destruct (Bool.eqb (power (state s)) (truthy v)) eqn:E; simpl.
    + apply Bool.eqb_prop in E. exact E.
    + reflexivity.
  - destruct (Bool.eqb (feed (state s)) (truthy v)) eqn:E; simpl.
    + apply Bool.eqb_prop in E. exact E.
    + reflexivity.
  - destruct (mode (state s) =? v) eqn:E; simpl.
    + apply Z.eqb_eq in E. exact E.
    + reflexivity.
  - destruct (flow (state s) =? v) eqn:E; simpl.
    + apply Z.eqb_eq in E. exact E.
    + reflexivity.
  - destruct (frequency (state s) =? v) eqn:E; simpl.
    + apply Z.eqb_eq in E. exact E.
    + reflexivity.
Qed.

(** ** Inbound attribute update: events and repetition *)

Lemma triple_eqb (t h l a b c : Z) :
  (t =? a) && (h =? b) && (l =? c) = true -> t = a /\ h = b /\ l = c.
Proof.
  intros H. apply andb_true_iff in H. destruct H as [H Hl].
  apply andb_true_iff in H. destruct H as [Ht Hh].
  apply Z.eqb_eq in Ht, Hh, Hl. auto.
Qed.

Lemma bool_neq_eqb (a b : bool) : Bool.eqb a b = false -> a <> b.
Proof. destruct a, b; simpl; congruence. Qed.

(** The six ways [_update_state] can go before [if changed]. *)
Lemma apply_attribute_cases (now : float) (t h l v : Z) (p : PumpState) :
  (forall now', apply_attribute now' t h l v p = (p, false))
  \/ (t = 0 /\ h = 0 /\ l = 1 /\ power p <> truthy v
      /\ apply_attribute now t h l v p = (track_power now v p, true))
  \/ (t = 0 /\ h = 0 /\ l = 4 /\ feed p <> truthy v
      /\ apply_attribute now t h l v p = (set_feed_field (truthy v) p, true))
  \/ (t = 0 /\ h = 16 /\ l = 2 /\ mode p <> v
      /\ apply_attribute now t h l v p = (set_mode_field v p, true))
  \/ (t = 0 /\ h = 128 /\ l = 0 /\ flow p <> v
      /\ apply_attribute now t h l v p = (set_flow_field v p, true))
  \/ (t = 1 /\ h = 0 /\ l = 0 /\ frequency p <> v
      /\ apply_attribute now t h l v p = (set_frequency_field v p, true)).
Proof.
  unfold apply_attribute.
  destruct ((t =? 0) && (h =? 0) && (l =? 1)) eqn:E1.
  { apply triple_eqb in E1. destruct E1 as (-> & -> & ->).
    destruct (Bool.eqb (power p) (truthy v)) eqn:E; simpl.
    - left. intros _. reflexivity.
    - right. left. repeat split. apply bool_neq_eqb. exact E. }
  destruct ((t =? 0) && (h =? 0) && (l =? 4)) eqn:E2.
  { apply triple_eqb in E2. destruct E2 as (-> & -> & ->).
    destruct (Bool.eqb (feed p) (truthy v)) eqn:E; simpl.
    - left. intros _. reflexivity.
    - right. right. left. repeat split. apply bool_neq_eqb. exact E. }
  destruct ((t =? 0) && (h =? 16) && (l =? 2)) eqn:E3.
  { apply triple_eqb in E3. destruct E3 as (-> & -> & ->).
    destruct (mode p =? v) eqn:E; simpl.
    - left. intros _. reflexivity.
    - right. right. right. left. repeat split. apply Z.eqb_neq. exact E. }
  destruct ((t =? 0) && (h =? 128) && (l =? 0)) eqn:E4.
  { apply triple_eqb in E4. destruct E4 as (-> & -> & ->).
    destruct (flow p =? v) eqn:E; simpl.
    - left. intros _. reflexivity.
    - right. right. right. right. left. repeat split. apply Z.eqb_neq. exact E. }
  destruct ((t =? 1) && (h =? 0) && (l =? 0)) eqn:E5.
  { apply triple_eqb in E5. destruct E5 as (-> & -> & ->).
    destruct (frequency p =? v) eqn:E; simpl.
    - left. intros _. reflexivity.
    - right. right. right. right. right. repeat split.
      apply Z.eqb_neq. exact E. }
  left. intros _. reflexivity.
Qed.

(** [_update_state] either leaves the session alone, at any time of the
    day, or stores a state that differs from the old one, in which the
    value is settled, and tells the observer once. *)
Lemma update_state_cases (now : float) (t h l v : Z) (s : Session) :
  (forall now', update_state now' t h l v s = s)
  \/ (exists p',
        update_state now t h l v s
          = state_callback (with_state (set_state_initialized true p') s)
        /\ set_state_initialized true p' <> state s
        /\ forall now',
             apply_attribute now' t h l v (set_state_initialized true p')
             = (set_state_initialized true p', false)).
Proof.
  unfold update_state.
  destruct (apply_attribute_cases now t h l v (state s))
    as [H|[H|[H|[H|[H|H]]]]].
  - left. intros now'. rewrite H. apply with_state_same.
  - destruct H as (-> & -> & -> & Hn & ->). right.
    exists (track_power now v (state s)). split; [reflexivity|]. split.
    + intros E. apply Hn. rewrite <- E. reflexivity.
    + intros now'. unfold apply_attribute. simpl.
      rewrite Bool.eqb_reflx. reflexivity.
  - destruct H as (-> & -> & -> & Hn & ->). right.
    exists (set_feed_field (truthy v) (state s)). split; [reflexivity|]. split.
    + intros E. apply Hn. rewrite <- E. reflexivity.
    + intros now'. unfold apply_attribute. simpl.
      rewrite Bool.eqb_reflx. reflexivity.
  - destruct H as (-> & -> & -> & Hn & ->). right.
    exists (set_mode_field v (state s)). split; [reflexivity|]. split.
    + intros E. apply Hn. rewrite <- E. reflexivity.
    + intros now'. unfold apply_attribute. simpl.
      rewrite Z.eqb_refl. reflexivity.
  - destruct H as (-> & -> & -> & Hn & ->). right.
    exists (set_flow_field v (state s)). split; [reflexivity|]. split.
    + intros E. apply Hn. rewrite <- E. reflexivity.
    + intros now'. unfold apply_attribute. simpl.
      rewrite Z.eqb_refl. reflexivity.
  - destruct H as (-> & -> & -> & Hn & ->). right.
    exists (set_frequency_field v (state s)). split; [reflexivity|]. split.
    + intros E. apply Hn. rewrite <- E. reflexivity.
    + intros now'. unfold apply_attribute. simpl.
      rewrite Z.eqb_refl. reflexivity.
Qed.

(** [_update_state] tells the observer exactly when a field changes: it
    either returns the session as it was, or the pump state differs from
    the old one, [state_initialized] is true and [state_callback] has been
    invoked exactly once. *)
Theorem update_state_event_iff_change (now : float) (t h l v : Z) (s : Session) :
  (update_state now t h l v s = s
   \/ (state (update_state now t h l v s) <> state s
       /\ state_initialized (state (update_state now t h l v s)) = true
       /\ callbacks (update_state now t h l v s) = S (callbacks s)))
  /\ (callbacks (update_state now t h l v s) = callbacks s
      <-> state (update_state now t h l v s) = state s).
Proof.
  destruct (update_state_cases now t h l v s) as [H|(p' & E & Hn & _)].
  - rewrite H. split; [left; reflexivity|]. split; reflexivity.
  - rewrite E. simpl. split.
    + right. repeat split. exact Hn.
    + split; [intros H; lia|intros H; contradiction].
Qed.

(** A notification received twice changes nothing the second time: the
    second [_update_state] with the same attribute and value returns the
    session of the first, without an event, whenever it comes. *)
Theorem update_state_idempotent (now now' : float) (t h l v : Z) (s : Session) :
  update_state now' t h l v (update_state now t h l v s)
  = update_state now t h l v s.
Proof.
  destruct (update_state_cases now t h l v s) as [H|(p' & E & _ & Hs)].
  - rewrite !H. reflexivity.
  - rewrite E. unfold update_state at 1. simpl.
    rewrite Hs. simpl. destruct s; reflexivity.
Qed.

(** ** Notification handler: what it keeps *)

Lemma track_power_fields (now : float) (v : Z) (p : PumpState) :
  connected (track_power now v p) = connected p
  /\ state_initialized (track_power now v p) = state_initialized p
  /\ power (track_power now v p) = truthy v.
Proof.
  unfold track_power.
  destruct (truthy v); [repeat split|].
  destruct (PrimFloat.ltb 0 (power_on_time p)); repeat split.
Qed.

Lemma notification_keeps_refl (s : Session) : notification_keeps s s.
Proof. unfold notification_keeps. repeat split; auto; lia. Qed.

Lemma update_state_keeps (now : float) (t h l v : Z) (s : Session) :
  notification_keeps s (update_state now t h l v s).
Proof.
  unfold update_state.
  destruct (apply_attribute_cases now t h l v (state s))
    as [H|[H|[H|[H|[H|H]]]]].
  - rewrite H, with_state_same. apply notification_keeps_refl.
  - destruct H as (_ & _ & _ & _ & ->).
    destruct (track_power_fields now v (state s)) as (Hc & _ & _).
    unfold notification_keeps. cbn -[track_power]. rewrite Hc.
    repeat split; auto; lia.
  - destruct H as (_ & _ & _ & _ & ->).
    unfold notification_keeps. simpl. repeat split; auto; lia.
  - destruct H as (_ & _ & _ & _ & ->).
    unfold notification_keeps. simpl. repeat split; auto; lia.
  - destruct H as (_ & _ & _ & _ & ->).
    unfold notification_keeps. simpl. repeat split; auto; lia.
  - destruct H as (_ & _ & _ & _ & ->).
    unfold notification_keeps. simpl. repeat split; auto; lia.
Qed.

(** Whatever the frame, [_notification_handler] leaves the configuration,
    the client, the serial and the loop flags of the session alone; it
    never clears [authenticated], [connected] or [state_initialized]; and
    it invokes [state_callback] at most once. *)
Theorem notification_handler_keeps (now : float) (data : bytes) (s : Session) :
  notification_keeps s (notification_handler now data s).
Proof.
  unfold notification_handler.
  destruct (List.length data <? 8)%nat; [apply notification_keeps_refl|].
  destruct ((from_bytes_big (slice 6 8 data) =? 7) && (8 <? List.length data)%nat).
  { unfold notification_keeps. simpl. repeat split; auto; lia. }
  destruct (from_bytes_big (slice 6 8 data) =? 9).
  { destruct ((8 <? List.length data)%nat && (byte_to_Z (byte_at 8 data) =? 0));
      [|apply notification_keeps_refl].
    unfold notification_keeps. simpl. repeat split; auto; lia. }
  destruct ((from_bytes_big (slice 6 8 data) =? 147) && (19 <=? List.length data)%nat);
    [|apply notification_keeps_refl].
  cbv zeta.
  destruct (11 <=? List.length (slice_from 12 data))%nat;
    [apply update_state_keeps|apply notification_keeps_refl].
Qed.

Lemma runtime_consistent_update (now : float) (t h l v : Z) (s : Session) :
  runtime_consistent (state s) ->
  runtime_consistent (state (update_state now t h l v s)).
Proof.
  intros Hr. unfold update_state.
  destruct (apply_attribute_cases now t h l v (state s))
    as [H|[H|[H|[H|[H|H]]]]].
  - rewrite H, with_state_same. exact Hr.
  - destruct H as (_ & _ & _ & _ & ->). simpl.
    unfold runtime_consistent, track_power. simpl.
    destruct (truthy v); simpl; [discriminate|]. intros _.
    destruct (PrimFloat.ltb 0 (power_on_time (state s))) eqn:E; simpl;
      [reflexivity|exact E].
  - destruct H as (_ & _ & _ & _ & ->). exact Hr.
  - destruct H as (_ & _ & _ & _ & ->). exact Hr.
  - destruct H as (_ & _ & _ & _ & ->). exact Hr.
  - destruct H as (_ & _ & _ & _ & ->). exact Hr.
Qed.

(** The handler keeps the runtime accounting consistent: if no power-on
    instant is pending while the pump is off, the same holds after any
    notification, at any time.  The fresh session starts that way. *)
Theorem notification_handler_runtime_consistent (now : float) (data : bytes)
    (s : Session) :
  runtime_consistent (state s) ->
  runtime_consistent (state (notification_handler now data s)).
Proof.
  intros Hr. unfold notification_handler.
  destruct (List.length data <? 8)%nat; [exact Hr|].
  destruct ((from_bytes_big (slice 6 8 data) =? 7) && (8 <? List.length data)%nat);
    [exact Hr|].
  destruct (from_bytes_big (slice 6 8 data) =? 9).
  { destruct ((8 <? List.length data)%nat && (byte_to_Z (byte_at 8 data) =? 0));
      exact Hr. }
  destruct ((from_bytes_big (slice 6 8 data) =? 147) && (19 <=? List.length data)%nat);
    [|exact Hr].
  cbv zeta.
  destruct (11 <=? List.length (slice_from 12 data))%nat;
    [apply runtime_consistent_update; exact Hr|exact Hr].
Qed.

Lemma notification_handler_runtime_consistent_witness :
  runtime_consistent
    (state (notification_handler 1000%float mode_frame (new_session test_config 0))).
Proof.
  apply (notification_handler_runtime_consistent 1000%float mode_frame
           (new_session test_config 0)).
  intros _. reflexivity.
Defined.

(** ** Control frames read back *)

Lemma control_frame_read_back (now : float) (sn : Z) (t h l v : Z)
    (packet : bytes) (s : Session) :
  control_packet sn (t, h, l) v = Ret packet ->
  notification_handler now packet s = update_state now t h l v s.
Proof.
  intros E.
  destruct (control_packet_inv _ _ _ _ E)
    as (b3 & b2 & b1 & b0 & b7 & b8 & b9 & b10 & -> & _ & Ha & Hv).
  injection Ha as <- <- <-. subst v. reflexivity.
Qed.

(** The P0 written by the command path is read back by the notification
    handler: when the pump echoes a frame that [_send_command] handed to
    the transport for an attribute and a value, the handler applies
    [_update_state] with that attribute and that value. *)
Theorem command_echo_decoded (tr : Transport) (now : float) (t h l v : Z)
    (s s0 : Session) (packet : bytes) :
  In (OpWrite packet) (snd (fst (send_command tr (t, h, l) v s))) ->
  notification_handler now packet s0 = update_state now t h l v s0.
Proof.
  intros Hin.
  destruct (send_command_cases tr (t, h, l) v s)
    as [[E1 _]|[(e & E1 & _ & _)|(q & _ & Ep & E1)]];
    rewrite E1 in Hin; simpl in Hin; try contradiction.
  destruct Hin as [Hq|[]]. injection Hq as ->.
  apply (control_frame_read_back now _ _ _ _ _ _ s0 Ep).
Qed.

Lemma command_echo_decoded_witness :
  flow (state (notification_handler 0%float
                 [x00; x00; x00; x03; x12; x00; x00; x93; x00; x00; x00; x01;
                  x11; x00; x00; x00; x00; x00; x00; x00; x80; x00; x50]
                 ready_session)) = 80.
Proof.
  rewrite (command_echo_decoded good_transport 0%float 0 128 0 80
             ready_session ready_session).
  - reflexivity.
  - left. reflexivity.
Defined.

(** ** Login *)

(** A passcode response of up to 260 bytes is echoed verbatim: the handler
    stores the bytes from offset 8 and creates one login task, and
    [_send_login] on a connected client writes one login frame whose
    payload is those bytes.  With a longer response [_send_login] raises
    [ValueError] and writes nothing; without a connected client it does
    nothing. *)
Theorem passcode_echoed (tr : Transport) (now : float) (data : bytes)
    (s : Session) :
  frame_cmd data = 7 ->
  (8 < List.length data)%nat ->
  passcode (notification_handler now data s) = slice_from 8 data
  /\ login_tasks (notification_handler now data s) = S (login_tasks s)
  /\ (client_connected s = true -> (List.length data <= 260)%nat ->
      exists packet,
        send_login tr (notification_handler now data s)
          = (write_gatt_char tr packet, [OpWrite packet])
        /\ parse_frame packet = Some (CMD_LOGIN, slice_from 8 data))
  /\ (client_connected s = true -> (260 < List.length data)%nat ->
      send_login tr (notification_handler now data s) = (Raise ValueError, []))
  /\ (client_connected s = false ->
      send_login tr (notification_handler now data s) = (Ret tt, [])).
Proof.
  intros Hc Hl.
  assert (E : notification_handler now data s
              = create_login_task (with_passcode (slice_from 8 data) s)).
  { unfold notification_handler. unfold frame_cmd in Hc. rewrite Hc.
    destruct (List.length data <? 8)%nat eqn:E8; [apply Nat.ltb_lt in E8; lia|].
    destruct (8 <? List.length data)%nat eqn:E9; [|apply Nat.ltb_ge in E9; lia].
    reflexivity. }
  rewrite E.
  assert (Hlen : List.length (slice_from 8 data) = (List.length data - 8)%nat)
    by apply length_skipn.
  split; [reflexivity|]. split; [reflexivity|].
  unfold send_login.
  change (client_connected (create_login_task (with_passcode (slice_from 8 data) s)))
    with (client_connected s).
  change (passcode (create_login_task (with_passcode (slice_from 8 data) s)))
    with (slice_from 8 data).
  split; [|split].
  - intros Hcc Hmax. rewrite Hcc.
    destruct (make_packet_parse CMD_LOGIN (slice_from 8 data))
      as (packet & Ep & _ & Hp).
    + unfold CMD_LOGIN. lia.
    + lia.
    + exists packet. rewrite Ep. split; [reflexivity|exact Hp].
  - intros Hcc Hmin. rewrite Hcc. unfold make_packet.
    rewrite byte_of_Z_out by lia. reflexivity.
  - intros Hcc. rewrite Hcc. reflexivity.
Qed.

Lemma passcode_echoed_witness :
  passcode (notification_handler 0%float
              [x00; x00; x00; x03; x0b; x00; x00; x07;
               xaa; xbb; xcc; xdd; xee; xff; x11; x22] linked_session)
  = [xaa; xbb; xcc; xdd; xee; xff; x11; x22].
Proof.
  apply (passcode_echoed good_transport 0%float
           [x00; x00; x00; x03; x0b; x00; x00; x07;
            xaa; xbb; xcc; xdd; xee; xff; x11; x22] linked_session).
  - reflexivity.
  - simpl. lia.
Defined.

(** ** Command path: serials, errors and what is left alone *)

Lemma send_command_written (tr : Transport) (a : attr) (v : Z) (s : Session)
    (packet : bytes) :
  snd (fst (send_command tr a v s)) = [OpWrite packet] ->
  ready s
  /\ control_packet (command_sn s) a v = Ret packet
  /\ snd (send_command tr a v s) = with_command_sn (command_sn s + 1) s.
Proof.
  intros H.
  destruct (send_command_cases tr a v s)
    as [[E1 _]|[(e & E1 & _ & _)|(q & Hr & Ep & E1)]];
    rewrite E1 in H |- *; simpl in H; try discriminate.
  injection H as ->. repeat split; try assumption; apply Hr.
Qed.

(** Two commands in a row that reach the transport carry consecutive
    serials, whether or not the first write was accepted; and on a
    connected, authenticated session with room for two serials both
    commands do reach the transport. *)
Theorem consecutive_serials (tr : Transport) (a1 a2 : attr) (v1 v2 : Z)
    (s : Session) :
  (forall p1 p2,
     snd (fst (send_command tr a1 v1 s)) = [OpWrite p1] ->
     snd (fst (send_command tr a2 v2 (snd (send_command tr a1 v1 s))))
       = [OpWrite p2] ->
     frame_serial p1 = command_sn s /\ frame_serial p2 = command_sn s + 1)
  /\ (ready s -> attr_fits a1 -> attr_fits a2 -> 0 <= v1 < 256 ->
      0 <= v2 < 256 -> 0 <= command_sn s < 4294967295 ->
      exists p1 p2,
        snd (fst (send_command tr a1 v1 s)) = [OpWrite p1]
        /\ snd (fst (send_command tr a2 v2 (snd (send_command tr a1 v1 s))))
           = [OpWrite p2]).
Proof.
  split.
  - intros p1 p2 H1 H2.
    destruct (send_command_written _ _ _ _ _ H1) as (_ & E1 & Es).
    rewrite Es in H2.
    destruct (send_command_written _ _ _ _ _ H2) as (_ & E2 & _).
    simpl in E2.
    destruct (control_packet_fields _ _ _ _ E1) as (_ & _ & S1 & _).
    destruct (control_packet_fields _ _ _ _ E2) as (_ & _ & S2 & _).
    split; assumption.
  - intros Hr Ha1 Ha2 Hv1 Hv2 Hs.
    destruct (control_packet_ok (command_sn s) a1 v1 Ha1 Hv1) as (p1 & E1); [lia|].
    destruct (control_packet_ok (command_sn s + 1) a2 v2 Ha2 Hv2) as (p2 & E2);
      [lia|].
    exists p1, p2.
    rewrite (send_command_ready tr a1 v1 s p1 Hr E1). simpl.
    split; [reflexivity|].
    assert (Hr' : ready (with_command_sn (command_sn s + 1) s)).
    { destruct Hr as [Ha Hc]. split; [exact Ha|exact Hc]. }
    rewrite (send_command_ready tr a2 v2 _ p2 Hr' E2). reflexivity.
Qed.

Lemma consecutive_serials_witness :
  exists p1 p2,
    snd (fst (send_command good_transport ATTR_POWER 1 ready_session))
      = [OpWrite p1]
    /\ snd (fst (send_command good_transport ATTR_FLOW 80
                  (snd (send_command good_transport ATTR_POWER 1 ready_session))))
       = [OpWrite p2]
    /\ frame_serial p1 = 1 /\ frame_serial p2 = 2.
Proof.
  destruct (consecutive_serials good_transport ATTR_POWER ATTR_FLOW 1 80
              ready_session) as [Hs He].
  destruct He as (p1 & p2 & E1 & E2).
  - split; reflexivity.
  - simpl. lia.
  - simpl. lia.
  - lia.
  - lia.
  - simpl. lia.
  - exists p1, p2. split; [exact E1|]. split; [exact E2|].
    apply (Hs p1 p2 E1 E2).
Defined.

(** The serial does not wrap: once it has left the four-byte range every
    command on a connected, authenticated session raises [OverflowError],
    writes nothing and leaves the session as it is, so the next command
    fails the same way.  The last serial that is sent is 4294967295. *)
Theorem serial_exhausted (tr : Transport) (a : attr) (v : Z) (s : Session) :
  ready s -> attr_fits a -> 0 <= v < 256 ->
  (command_sn s < 0 \/ 4294967296 <= command_sn s ->
   send_command tr a v s = (Raise OverflowError, [], s))
  /\ (command_sn s = 4294967295 ->
      exists packet,
        snd (fst (send_command tr a v s)) = [OpWrite packet]
        /\ send_command tr a v (snd (send_command tr a v s))
           = (Raise OverflowError, [], snd (send_command tr a v s))).
Proof.
  intros Hr Ha Hv.
  assert (Hov : forall s0, ready s0 ->
            command_sn s0 < 0 \/ 4294967296 <= command_sn s0 ->
            send_command tr a v s0 = (Raise OverflowError, [], s0)).
  { intros s0 [Hau Hcc] Hs. unfold send_command. rewrite Hau, Hcc. simpl.
    unfold control_packet.
    destruct a as [[t h] l]. destruct Ha as (Ht & Hh & Hl).
    unfold make_write_p0.
    destruct (byte_of_Z_ok t Ht) as (b7 & -> & _).
    destruct (byte_of_Z_ok h Hh) as (b8 & -> & _).
    destruct (byte_of_Z_ok l Hl) as (b9 & -> & _).
    destruct (byte_of_Z_ok v Hv) as (b10 & -> & _).
    cbn [bind]. unfold to_bytes4.
    replace ((command_sn s0 <? 0) || (4294967296 <=? command_sn s0)) with true;
      [reflexivity|].
    symmetry. apply orb_true_iff.
    destruct Hs; [left; apply Z.ltb_lt|right; apply Z.leb_le]; lia. }
  split; [apply Hov; exact Hr|].
  intros Hlast.
  destruct (control_packet_ok (command_sn s) a v Ha Hv) as (packet & Ep); [lia|].
  exists packet. rewrite (send_command_ready tr a v s packet Hr Ep). simpl.
  split; [reflexivity|]. apply Hov.
  - destruct Hr as [Hau Hcc]. split; [exact Hau|exact Hcc].
  - simpl. lia.
Qed.

Lemma serial_exhausted_witness :
  send_command good_transport ATTR_POWER 1
    (with_command_sn 4294967296 ready_session)
  = (Raise OverflowError, [], with_command_sn 4294967296 ready_session).
Proof.
  apply (serial_exhausted good_transport ATTR_POWER 1
           (with_command_sn 4294967296 ready_session)).
  - split; reflexivity.
  - simpl. lia.
  - lia.
  - right. simpl. lia.
Defined.

Lemma send_command_only_serial (tr : Transport) (a : attr) (v : Z) (s : Session) :
  only_serial_moved s (snd (send_command tr a v s))
  /\ command_sn s <= command_sn (snd (send_command tr a v s)) <= command_sn s + 1
  /\ (List.length (snd (fst (send_command tr a v s))) <= 1)%nat.
Proof.
  unfold only_serial_moved.
  destruct (send_command_cases tr a v s)
    as [[E1 _]|[(e & E1 & _ & _)|(q & _ & _ & E1)]]; rewrite E1; simpl.
  - split; [destruct s; reflexivity|]. split; [lia|lia].
  - split; [destruct s; reflexivity|]. split; [lia|lia].
  - split; [reflexivity|]. split; [lia|lia].
Qed.

(** No command updates the local state on its own: whatever the call and
    whatever the transport does, the session afterwards is the session
    before but for the serial, which has moved by at most one, and at most
    one frame has been handed to the transport. *)
Theorem run_call_only_serial (tr : Transport) (c : call) (s : Session) :
  only_serial_moved s (snd (run_call tr c s))
  /\ command_sn s <= command_sn (snd (run_call tr c s)) <= command_sn s + 1
  /\ (List.length (snd (fst (run_call tr c s))) <= 1)%nat.
Proof.
  assert (Hsame : only_serial_moved s s /\ command_sn s <= command_sn s <= command_sn s + 1
                  /\ (@List.length op [] <= 1)%nat).
  { unfold only_serial_moved. split; [destruct s; reflexivity|].
    split; [lia|simpl; lia]. }
  destruct c; simpl.
  - apply send_command_only_serial.
  - apply send_command_only_serial.
  - apply send_command_only_serial.
  - apply send_command_only_serial.
  - unfold set_mode_by_name.
    destruct (mode_values_get mode_name MODE_VALUES) as [m|]; [|exact Hsame].
    unfold set_mode. destruct (in_MODES m); [|exact Hsame].
    apply send_command_only_serial.
Qed.

(** While the session is not both connected and authenticated every call
    is rejected: it returns [False], hands nothing to the transport and
    leaves the session, serial included, as it was. *)
Theorem run_call_not_connected (tr : Transport) (c : call) (s : Session) :
  ~ ready s -> run_call tr c s = (Ret false, [], s).
Proof.
  intros Hn.
  assert (Hs : forall a v, send_command tr a v s = (Ret false, [], s)).
  { intros a v.
    destruct (send_command_cases tr a v s)
      as [[E1 _]|[(e & _ & _ & Hr)|(q & Hr & _ & _)]];
      [exact E1|contradiction|contradiction]. }
  destruct c; simpl; try apply Hs.
  unfold set_mode_by_name.
  destruct (mode_values_get mode_name MODE_VALUES) as [m|]; [|reflexivity].
  unfold set_mode. destruct (in_MODES m); [apply Hs|reflexivity].
Qed.

Lemma run_call_not_connected_witness :
  run_call good_transport (CallSetFlow 80) linked_session
  = (Ret false, [], linked_session).
Proof.
  apply (run_call_not_connected good_transport (CallSetFlow 80) linked_session).
  intros [H _]. discriminate.
Defined.

Lemma send_command_value_error (tr : Transport) (a : attr) (v : Z) (s : Session) :
  ready s -> attr_fits a -> v < 0 \/ 256 <= v ->
  send_command tr a v s = (Raise ValueError, [], s).
Proof.
  intros [Hau Hcc] Ha Hv. unfold send_command. rewrite Hau, Hcc. simpl.
  unfold control_packet, make_write_p0.
  destruct a as [[t h] l]. destruct Ha as (Ht & Hh & Hl).
  destruct (byte_of_Z_ok t Ht) as (b7 & -> & _).
  destruct (byte_of_Z_ok h Hh) as (b8 & -> & _).
  destruct (byte_of_Z_ok l Hl) as (b9 & -> & _).
  rewrite (byte_of_Z_out v Hv). reflexivity.
Qed.

Lemma send_command_sends (tr : Transport) (a : attr) (v : Z) (s : Session) :
  ready s -> attr_fits a -> serial_fits s -> 0 <= v < 256 ->
  exists packet,
    snd (fst (send_command tr a v s)) = [OpWrite packet]
    /\ p0_value packet = v
    /\ frame_cmd packet = CMD_CONTROL.
Proof.
  intros Hr Ha Hs Hv.
  destruct (control_packet_ok (command_sn s) a v Ha Hv Hs) as (packet & Ep).
  exists packet. rewrite (send_command_ready tr a v s packet Hr Ep). simpl.
  destruct (control_packet_fields _ _ _ _ Ep) as (_ & Hc & _ & Hp & _).
  repeat split; assumption.
Qed.

(** The bounds of the configuration are not checked against the byte they
    are sent in: on a connected, authenticated session [set_flow] sends a
    frame exactly when the clamped value lies in 0..255; when it does not,
    the call raises [ValueError], writes nothing and leaves the session as
    it was.  The same for [set_frequency]. *)
Theorem numeric_setters_byte_range (tr : Transport) (v : Z) (s : Session) :
  ready s -> serial_fits s ->
  (0 <= clamp (flow_min (config s)) (flow_max (config s)) v < 256 ->
   exists packet,
     snd (fst (set_flow tr v s)) = [OpWrite packet]
     /\ p0_value packet = clamp (flow_min (config s)) (flow_max (config s)) v)
  /\ (clamp (flow_min (config s)) (flow_max (config s)) v < 0
      \/ 256 <= clamp (flow_min (config s)) (flow_max (config s)) v ->
      set_flow tr v s = (Raise ValueError, [], s))
  /\ (0 <= clamp (frequency_min (config s)) (frequency_max (config s)) v < 256 ->
      exists packet,
        snd (fst (set_frequency tr v s)) = [OpWrite packet]
        /\ p0_value packet
           = clamp (frequency_min (config s)) (frequency_max (config s)) v)
  /\ (clamp (frequency_min (config s)) (frequency_max (config s)) v < 0
      \/ 256 <= clamp (frequency_min (config s)) (frequency_max (config s)) v ->
      set_frequency tr v s = (Raise ValueError, [], s)).
Proof.
  intros Hr Hs. unfold set_flow, set_frequency, clamp.
  assert (Hf : attr_fits ATTR_FLOW) by (unfold attr_fits, ATTR_FLOW; lia).
  assert (Hq : attr_fits ATTR_FREQUENCY) by (unfold attr_fits, ATTR_FREQUENCY; lia).
  split; [|split; [|split]].
  - intros Hv.
    destruct (send_command_sends tr ATTR_FLOW _ s Hr Hf Hs Hv) as (q & E & P & _).
    exists q. split; assumption.
  - intros Hv. apply send_command_value_error; assumption.
  - intros Hv.
    destruct (send_command_sends tr ATTR_FREQUENCY _ s Hr Hq Hs Hv)
      as (q & E & P & _).
    exists q. split; assumption.
  - intros Hv. apply send_command_value_error; assumption.
Qed.

Lemma numeric_setters_byte_range_witness :
  set_flow good_transport 10
    (with_authenticated true
       (with_client (Some (mkClient true))
          (new_session (mkPumpConfig "P" "M" "p" 300 400 5 20) 0)))
  = (Raise ValueError, [],
     with_authenticated true
       (with_client (Some (mkClient true))
          (new_session (mkPumpConfig "P" "M" "p" 300 400 5 20) 0))).
Proof.
  apply (numeric_setters_byte_range good_transport 10
           (with_authenticated true
              (with_client (Some (mkClient true))
                 (new_session (mkPumpConfig "P" "M" "p" 300 400 5 20) 0)))).
  - split; reflexivity.
  - unfold serial_fits. simpl. lia.
  - right. unfold clamp. simpl. lia.
Defined.

(** ** Broker commands: what is dropped, what comes back *)

(** A command for an entity that is none of power, feed, flow, frequency
    and mode is dropped: nothing is written and the pump is left alone.  So
    is a flow or frequency command whose payload does not parse as a
    number. *)
Theorem handle_command_dropped (int_of_float_str : string -> result Z)
    (tr : Transport) (pump : Session) (entity payload : string) :
  (~ In entity command_entities ->
   handle_command int_of_float_str tr pump entity payload = ([], pump))
  /\ ((exists e, int_of_float_str payload = Raise e) ->
      handle_command int_of_float_str tr pump "flow" payload = ([], pump)
      /\ handle_command int_of_float_str tr pump "frequency" payload
         = ([], pump)).
Proof.
  split.
  - intros Hn. unfold handle_command, command_call.
    destruct (String.eqb entity "power") eqn:E1.
    { apply String.eqb_eq in E1. exfalso. apply Hn. subst. simpl. auto. }
    destruct (String.eqb entity "feed") eqn:E2.
    { apply String.eqb_eq in E2. exfalso. apply Hn. subst. simpl. auto. }
    destruct (String.eqb entity "flow") eqn:E3.
    { apply String.eqb_eq in E3. exfalso. apply Hn. subst. simpl. auto. }
    destruct (String.eqb entity "frequency") eqn:E4.
    { apply String.eqb_eq in E4. exfalso. apply Hn. subst. simpl. auto. }
    destruct (String.eqb entity "mode") eqn:E5.
    { apply String.eqb_eq in E5. exfalso. apply Hn. subst. simpl. auto 6. }
    reflexivity.
  - intros (e & He). unfold handle_command.
    cbn [command_call String.eqb Ascii.eqb Bool.eqb].
    rewrite He. split; reflexivity.
Qed.

Lemma handle_command_dropped_witness :
  handle_command no_number good_transport ready_session "colour" "red"
  = ([], ready_session)
  /\ handle_command no_number good_transport ready_session "flow" "fast"
     = ([], ready_session).
Proof.
  destruct (handle_command_dropped no_number good_transport ready_session
              "colour" "fast") as [H1 H2].
  split.
  - apply (proj1 (handle_command_dropped no_number good_transport ready_session
                    "colour" "red")).
    unfold command_entities. simpl.
    intros [H|[H|[H|[H|[H|[]]]]]]; discriminate.
  - apply H2. exists ValueError. reflexivity.
Defined.

Lemma mode_command_by_name (int_of_float_str : string -> result Z)
    (tr : Transport) (pump : Session) (m : Z) (n : string) :
  In (m, n) MODES ->
  handle_command int_of_float_str tr pump "mode" n
  = (snd (fst (send_command tr ATTR_MODE m pump)),
     snd (send_command tr ATTR_MODE m pump)).
Proof.
  intros H. unfold MODES in H. simpl in H.
  destruct H as [H|[H|[H|[H|[H|[]]]]]]; injection H as <- <-;
    unfold handle_command;
    cbn [command_call String.eqb Ascii.eqb Bool.eqb run_call];
    unfold set_mode_by_name;
    match goal with
    | |- context [mode_values_get ?x MODE_VALUES] =>
        let r := eval vm_compute in (mode_values_get x MODE_VALUES) in
        change (mode_values_get x MODE_VALUES) with r
    end;
    unfold set_mode;
    match goal with
    | |- context [in_MODES ?x] => change (in_MODES x) with true
    end;
    cbv iota;
    match goal with
    | |- context [send_command ?t ?a ?v ?s] =>
        destruct (send_command t a v s) as [[r o] s']
    end; reflexivity.
Qed.

(** The mode name that is published comes back as the same mode: for each
    known mode, the name [_publish_state] sends on [mode/state], received
    on [mode/set] by a connected, authenticated pump, makes it write one
    control frame with that mode at P0 offset 10.  The name [Unknown],
    published for any other mode, is not accepted back. *)
Theorem mode_name_round_trip (int_of_float_str : string -> result Z)
    (tr : Transport) (pump : Session) (m : Z) :
  (In m known_modes -> ready pump -> serial_fits pump ->
   exists n packet,
     modes_get m MODES = Some n
     /\ fst (handle_command int_of_float_str tr pump "mode" n) = [OpWrite packet]
     /\ frame_cmd packet = CMD_CONTROL
     /\ p0_value packet = m)
  /\ (~ In m known_modes -> modes_get m MODES = None)
  /\ handle_command int_of_float_str tr pump "mode" "Unknown" = ([], pump).
Proof.
  split; [|split].
  - intros Hm Hr Hs.
    assert (Hn : exists n, modes_get m MODES = Some n /\ In (m, n) MODES).
    { unfold known_modes in Hm. simpl in Hm.
      destruct Hm as [<-|[<-|[<-|[<-|[<-|[]]]]]];
        eexists; (split; [reflexivity|]); unfold MODES; simpl; auto 6. }
    destruct Hn as (n & En & Hin).
    assert (Hv : 0 <= m < 256).
    { unfold known_modes in Hm. simpl in Hm. intuition lia. }
    destruct (send_command_sends tr ATTR_MODE m pump Hr) as (q & E & P & C);
      [unfold attr_fits, ATTR_MODE; lia|exact Hs|exact Hv|].
    exists n, q. split; [exact En|].
    rewrite (mode_command_by_name int_of_float_str tr pump m n Hin). simpl.
    repeat split; assumption.
  - intros Hn. destruct (modes_get m MODES) as [n|] eqn:E; [|reflexivity].
    exfalso. apply Hn. apply in_MODES_known. unfold in_MODES. rewrite E.
    reflexivity.
  - reflexivity.
Qed.

Lemma mode_name_round_trip_witness :
  exists packet,
    fst (handle_command no_number good_transport ready_session "mode" "Random")
      = [OpWrite packet]
    /\ p0_value packet = 4.
Proof.
  destruct (mode_name_round_trip no_number good_transport ready_session 4)
    as [H _].
  destruct H as (n & packet & En & E & _ & P).
  - unfold known_modes. simpl. auto.
  - split; reflexivity.
  - unfold serial_fits. simpl. lia.
  - vm_compute in En. injection En as <-.
    exists packet. split; assumption.
Defined.

(** ** Link loss and shutdown *)

(** After [_on_disconnect], whatever the session was: the observer has
    been told once; every command is rejected without a write; and a
    publish with the broker connected sends [connected/state] = [OFF] and
    nothing else, so no stale value goes out.  A reconnect task is
    scheduled exactly when the loop is known and none is in flight. *)
Theorem link_loss_gates (format_2f : float -> string) (today : string)
    (now : float) (b : Bridge) (tr : Transport) (c : call)
    (task_in_flight : bool) (s : Session) :
  callbacks (fst (on_disconnect task_in_flight s)) = S (callbacks s)
  /\ run_call tr c (fst (on_disconnect task_in_flight s))
     = (Ret false, [], fst (on_disconnect task_in_flight s))
  /\ (broker_up b = true ->
      publish_state format_2f today now b (fst (on_disconnect task_in_flight s))
      = ([mkMessage (state_topic b s "connected") "OFF" true],
         fst (on_disconnect task_in_flight s)))
  /\ (snd (on_disconnect task_in_flight s) = true
      <-> loop_bound s = true /\ task_in_flight = false).
Proof.
  split; [reflexivity|]. split; [|split].
  - assert (Hs : forall a v,
              send_command tr a v (fst (on_disconnect task_in_flight s))
              = (Ret false, [], fst (on_disconnect task_in_flight s))).
    { intros a v. reflexivity. }
    destruct c; simpl run_call; try apply Hs.
    unfold set_mode_by_name.
    destruct (mode_values_get mode_name MODE_VALUES) as [m|]; [|reflexivity].
    unfold set_mode. destruct (in_MODES m); [apply Hs|reflexivity].
  - intros Hb. unfold publish_state, broker_up in *.
    destruct (mqtt_client b) as [cl|]; [|discriminate].
    rewrite Hb. reflexivity.
  - unfold on_disconnect. simpl.
    destruct (loop_bound s), task_in_flight; simpl; split;
      try discriminate; try (intros [? ?]; discriminate); auto.
Qed.

Lemma link_loss_gates_witness :
  publish_state no_format "2026-01-01" 0%float
    (mkBridge (Some (mkMqttClient true)) None)
    (fst (on_disconnect false ready_session))
  = ([mkMessage "jebao/test_pump/connected/state" "OFF" true],
     fst (on_disconnect false ready_session)).
Proof.
  apply (link_loss_gates no_format "2026-01-01" 0%float
           (mkBridge (Some (mkMqttClient true)) None) good_transport
           (CallSetPower true) false ready_session).
  reflexivity.
Defined.

(** After [disconnect()], with nothing else running during its cleanup,
    the session has no client, is neither authenticated nor connected and
    is marked as stopped; a reconnect loop that wakes up on it, still
    stopped, ends after that sleep without calling [connect()]. *)
Theorem shutdown_stops_reconnect (attempt : nat -> Session -> bool * Session)
    (asleep : nat -> Session -> Session) (jitter : nat -> Q)
    (fuel k : nat) (delay : Q) (s : Session) :
  client (snd (disconnect idle s)) = None
  /\ authenticated (snd (disconnect idle s)) = false
  /\ connected (state (snd (disconnect idle s))) = false
  /\ running (snd (disconnect idle s)) = false
  /\ (running (asleep k (snd (disconnect idle s))) = false ->
      reconnect_loop attempt asleep jitter (S fuel) k delay
        (snd (disconnect idle s))
      = ([delay], asleep k (snd (disconnect idle s)))).
Proof.
  assert (H : client (snd (disconnect idle s)) = None
              /\ authenticated (snd (disconnect idle s)) = false
              /\ connected (state (snd (disconnect idle s))) = false
              /\ running (snd (disconnect idle s)) = false).
  { unfold disconnect, cleanup_connection, idle. simpl.
    destruct (client s) eqn:E; simpl; repeat split; exact E. }
  destruct H as (H1 & H2 & H3 & H4).
  repeat split; try assumption.
  intros Hr. simpl. rewrite H2, Hr. reflexivity.
Qed.

Lemma shutdown_stops_reconnect_witness :
  reconnect_loop (fun _ s => (true, s)) idle (fun _ => 0%Q) 3 0 5%Q
    (snd (disconnect idle ready_session))
  = ([5%Q], snd (disconnect idle ready_session)).
Proof.
  apply (shutdown_stops_reconnect (fun _ s => (true, s)) idle (fun _ => 0%Q)
           2 0 5%Q ready_session).
  reflexivity.
Defined.

(** ** State publishing: the daily counter *)

Lemma reset_runtime_twice (today : string) (p : PumpState) :
  reset_runtime today (reset_runtime today p) = reset_runtime today p.
Proof.
  unfold reset_runtime.
  destruct (String.eqb (last_runtime_reset p) today) eqn:E; simpl.
  - rewrite E. reflexivity.
  - rewrite String.eqb_refl. reflexivity.
Qed.

Lemma reset_runtime_flags (today : string) (p : PumpState) :
  state_initialized (reset_runtime today p) = state_initialized p
  /\ connected (reset_runtime today p) = connected p
  /\ power (reset_runtime today p) = power p
  /\ power_on_time (reset_runtime today p) = power_on_time p.
Proof.
  unfold reset_runtime.
  destruct (negb (String.eqb (last_runtime_reset p) today)); repeat split.
Qed.

(** Publishing twice on the same day is harmless: the second
    [_publish_state], at whatever time, leaves the pump the first one
    returned as it is, so the counter is reset at most once a day; at the
    same instant it publishes the same messages again. *)
Theorem publish_state_stable (format_2f : float -> string) (today : string)
    (now now' : float) (b : Bridge) (pump : Session) :
  snd (publish_state format_2f today now' b
         (snd (publish_state format_2f today now b pump)))
  = snd (publish_state format_2f today now b pump)
  /\ fst (publish_state format_2f today now b
           (snd (publish_state format_2f today now b pump)))
     = fst (publish_state format_2f today now b pump).
Proof.
  unfold publish_state.
  destruct (mqtt_client b) as [c|]; [|split; reflexivity].
  destruct (mqtt_is_connected c); [|split; reflexivity].
  simpl negb. cbv iota.
  destruct (state_initialized (state pump)) eqn:Hi; simpl negb; cbv iota.
  - destruct (reset_runtime_flags today (state pump)) as (Hf & Hc & _).
    cbn [snd fst state with_state]. rewrite Hf, Hi. simpl negb. cbv iota.
    rewrite reset_runtime_twice. cbn [snd fst]. rewrite Hc.
    split; [destruct pump; reflexivity|reflexivity].
  - cbn [snd fst]. rewrite Hi. split; reflexivity.
Qed.

(** The daily reset happens inside a publish and nowhere else: with the
    broker connected and the pump initialised, the first publish on a day
    other than [last_runtime_reset] zeroes [runtime_today], records the day
    and publishes the runtime counted from zero; a publish on the recorded
    day, with the broker down or for a pump never initialised leaves the
    pump as it is. *)
Theorem publish_state_daily_reset (format_2f : float -> string) (today : string)
    (now : float) (b : Bridge) (pump : Session) :
  (broker_up b = true -> state_initialized (state pump) = true ->
   last_runtime_reset (state pump) <> today ->
   runtime_today (state (snd (publish_state format_2f today now b pump)))
     = 0%float
   /\ last_runtime_reset (state (snd (publish_state format_2f today now b pump)))
      = today
   /\ power (state (snd (publish_state format_2f today now b pump)))
      = power (state pump)
   /\ power_on_time (state (snd (publish_state format_2f today now b pump)))
      = power_on_time (state pump)
   /\ option_map payload
        (nth_error (fst (publish_state format_2f today now b pump)) 6)
      = Some (format_2f
                (current_runtime now
                   (set_runtime_today 0%float (state pump)))))
  /\ (broker_up b = false \/ state_initialized (state pump) = false
      \/ last_runtime_reset (state pump) = today ->
      snd (publish_state format_2f today now b pump) = pump).
Proof.
  unfold publish_state, broker_up. split.
  - intros Hb Hi Hd.
    destruct (mqtt_client b) as [c|]; [|discriminate].
    rewrite Hb, Hi. simpl negb. cbv iota.
    assert (Er : reset_runtime today (state pump)
                 = set_last_runtime_reset today
                     (set_runtime_today 0%float (state pump))).
    { unfold reset_runtime.
      destruct (String.eqb (last_runtime_reset (state pump)) today) eqn:E;
        [apply String.eqb_eq in E; contradiction|reflexivity]. }
    rewrite Er. repeat split.
  - intros H.
    destruct (mqtt_client b) as [c|]; [|reflexivity].
    destruct (mqtt_is_connected c); [|reflexivity].
    simpl negb. cbv iota.
    destruct (state_initialized (state pump)) eqn:Hi; [|reflexivity].
    simpl negb. cbv iota.
    destruct H as [H|[H|H]]; try discriminate.
    cbn [snd]. unfold reset_runtime. rewrite H, String.eqb_refl. simpl.
    apply with_state_same.
Qed.

Lemma publish_state_daily_reset_witness :
  last_runtime_reset
    (state (snd (publish_state no_format "2026-01-02" 0%float
                   (mkBridge (Some (mkMqttClient true)) None)
                   (notification_handler 0%float mode_frame
                      (new_session test_config 0)))))
  = "2026-01-02"%string.
Proof.
  apply (publish_state_daily_reset no_format "2026-01-02" 0%float
           (mkBridge (Some (mkMqttClient true)) None)
           (notification_handler 0%float mode_frame (new_session test_config 0))).
  - reflexivity.
  - reflexivity.
  - discriminate.
Defined.

(** ** Command topics *)

Local Open Scope string_scope.

Lemma split_slash_plain (a : string) :
  lacks "/" a = true -> split_slash a = [a].
Proof.
  induction a as [|c a IH]; simpl; [reflexivity|].
  intros H. apply andb_true_iff in H. destruct H as [Hc Ha].
  apply negb_true_iff in Hc. rewrite Hc, (IH Ha). reflexivity.
Qed.

Lemma split_slash_app (a r : string) :
  lacks "/" a = true ->
  split_slash (a ++ String "/" r) = a :: split_slash r.
Proof.
  induction a as [|c a IH]; simpl; [reflexivity|].
  intros H. apply andb_true_iff in H. destruct H as [Hc Ha].
  apply negb_true_iff in Hc. rewrite Hc, (IH Ha). reflexivity.
Qed.

Lemma split_slash_lacks (s : string) :
  Forall (fun part => lacks "/" part = true) (split_slash s)
  /\ split_slash s <> [].
Proof.
  induction s as [|c s [IH Hn]]; simpl.
  - split; [repeat constructor|discriminate].
  - destruct (Ascii.eqb c "/") eqn:Ec.
    + split; [constructor; [reflexivity|exact IH]|discriminate].
    + destruct (split_slash s) as [|h t]; [contradiction|].
      split; [|discriminate].
      inversion IH as [|x l Hh Ht]. subst.
      constructor; [|exact Ht]. simpl. rewrite Ec, Hh. reflexivity.
Qed.

(** Every topic [_subscribe_pump_commands] subscribes to is routed back
    by [_on_mqtt_message] to the pump it was subscribed for, with the
    entity of the topic and the payload untouched, provided the topic
    prefix and the pump id contain no slash and the loop is set; without
    the loop nothing is scheduled. *)
Theorem subscribed_topics_routed (b : Bridge) (pumps : list (string * Session))
    (pump_id : string) (pump : Session) (topic payload : string) :
  lacks "/" (topic_prefix b) = true ->
  lacks "/" pump_id = true ->
  pumps_get pump_id pumps = Some pump ->
  In topic (subscribe_pump_commands b pump_id) ->
  (exists entity,
     In entity command_entities
     /\ topic = topic_prefix b ++ "/" ++ pump_id ++ "/" ++ entity ++ "/set"
     /\ on_mqtt_message b pumps true topic payload = Some (pump, entity, payload))
  /\ on_mqtt_message b pumps false topic payload = None.
Proof.
  intros Hp Hi Hg Hin.
  unfold subscribe_pump_commands in Hin. apply in_map_iff in Hin.
  destruct Hin as (entity & Et & He).
  assert (Hparts : split_slash topic
                   = [topic_prefix b; pump_id; entity; "set"]).
  { subst topic.
    change ("/" ++ pump_id ++ "/" ++ entity ++ "/set")
      with (String "/" (pump_id ++ String "/" (entity ++ String "/" "set"))).
    rewrite (split_slash_app _ _ Hp), (split_slash_app _ _ Hi).
    assert (Hel : lacks "/" entity = true).
    { unfold command_entities in He. simpl in He.
      destruct He as [<-|[<-|[<-|[<-|[<-|[]]]]]]; reflexivity. }
    rewrite (split_slash_app _ _ Hel). reflexivity. }
  unfold on_mqtt_message. rewrite Hparts. simpl.
  rewrite String.eqb_refl, Hg. simpl. split; [|reflexivity].
  exists entity. repeat split; [exact He|symmetry; exact Et].
Qed.

Lemma subscribed_topics_routed_witness :
  on_mqtt_message (mkBridge None None) [("test_pump", ready_session)] true
    "jebao/test_pump/flow/set" "80"
  = Some (ready_session, "flow", "80").
Proof.
  destruct (subscribed_topics_routed (mkBridge None None)
              [("test_pump", ready_session)] "test_pump" ready_session
              "jebao/test_pump/flow/set" "80") as [(e & He & Et & Er) _].
  - reflexivity.
  - reflexivity.
  - reflexivity.
  - simpl. auto.
  - rewrite Er. f_equal. f_equal.
    change "jebao/test_pump/flow/set"
      with ("jebao" ++ "/" ++ "test_pump" ++ "/" ++ "flow" ++ "/set") in Et.
    simpl in Et. unfold command_entities in He. simpl in He.
    destruct He as [<-|[<-|[<-|[<-|[<-|[]]]]]];
      try discriminate; reflexivity.
Defined.

(** A topic prefix that contains a slash silences the pump commands: the
    first part of a split topic never contains one, so it never equals the
    prefix and [_on_mqtt_message] drops every message. *)
Theorem slash_prefix_drops_all (b : Bridge) (pumps : list (string * Session))
    (loop_set : bool) (topic payload : string) :
  lacks "/" (topic_prefix b) = false ->
  on_mqtt_message b pumps loop_set topic payload = None.
Proof.
  intros Hp. unfold on_mqtt_message.
  destruct ((List.length (split_slash topic) <? 4)%nat
            || negb (String.eqb (last (split_slash topic) "") "set"));
    [reflexivity|].
  destruct (String.eqb (nth 0 (split_slash topic) "") (topic_prefix b)) eqn:E;
    [|reflexivity].
  exfalso. apply String.eqb_eq in E.
  destruct (split_slash_lacks topic) as [Hf Hn].
  destruct (split_slash topic) as [|h t]; [contradiction|].
  simpl in E. inversion Hf as [|x l Hh Ht]. subst. congruence.
Qed.

Lemma slash_prefix_drops_all_witness :
  on_mqtt_message (mkBridge None (Some "home/jebao"))
    [("test_pump", ready_session)] true "home/jebao/test_pump/flow/set" "80"
  = None.
Proof.
  apply (slash_prefix_drops_all (mkBridge None (Some "home/jebao"))
           [("test_pump", ready_session)] true
           "home/jebao/test_pump/flow/set" "80").
  reflexivity.
Defined.

Local Close Scope string_scope.

(** ** Configuration and pump table *)

Local Open Scope string_scope.

Lemma generated_char (c : ascii) :
  let g := if Ascii.eqb (if Ascii.eqb (lower_ascii c) " " then "_"%char
                         else lower_ascii c) "-"
           then "_"%char
           else if Ascii.eqb (lower_ascii c) " " then "_"%char
                else lower_ascii c in
  negb (Ascii.eqb g " ") && negb (Ascii.eqb g "-")
  && negb ((65 <=? N_of_ascii g) && (N_of_ascii g <=? 90))%N
  && implb (N_of_ascii c <? 128)%N (N_of_ascii g <? 128)%N = true.
Proof.
  destruct c as [[] [] [] [] [] [] [] []]; reflexivity.
Qed.

Lemma generated_id_shape (n : string) :
  lacks " " (generated_id n) = true
  /\ lacks "-" (generated_id n) = true
  /\ no_capital (generated_id n) = true
  /\ (ascii_only n = true -> ascii_only (generated_id n) = true)
  /\ String.length (generated_id n) = String.length n.
Proof.
  unfold generated_id.
  induction n as [|c n (H1 & H2 & H3 & H4 & H5)]; simpl.
  - repeat split.
  - pose proof (generated_char c) as Hc. cbv zeta in Hc.
    apply andb_true_iff in Hc. destruct Hc as [Hc Hc4].
    apply andb_true_iff in Hc. destruct Hc as [Hc Hc3].
    apply andb_true_iff in Hc. destruct Hc as [Hc1 Hc2].
    rewrite Hc1, Hc2, Hc3, H1, H2, H3, H5. repeat split.
    intros Ha. apply andb_true_iff in Ha. destruct Ha as [Ha Hn].
    rewrite Ha in Hc4. simpl in Hc4. rewrite Hc4, (H4 Hn). reflexivity.
Qed.

(** [__post_init__] keeps an id that was given and derives a missing one
    from the name: the derived id has the length of the name and contains
    no space, no hyphen and no capital letter, for a name of ASCII
    characters.  Nothing else of the configuration changes, and applying
    it again changes nothing. *)
Theorem post_init_id (c : PumpConfig) :
  (id c <> "" -> post_init c = c)
  /\ (id c = "" -> ascii_only (name c) = true ->
      id (post_init c) = generated_id (name c)
      /\ lacks " " (id (post_init c)) = true
      /\ lacks "-" (id (post_init c)) = true
      /\ no_capital (id (post_init c)) = true
      /\ ascii_only (id (post_init c)) = true
      /\ String.length (id (post_init c)) = String.length (name c))
  /\ (name (post_init c), mac (post_init c), flow_min (post_init c),
      flow_max (post_init c), frequency_min (post_init c),
      frequency_max (post_init c))
     = (name c, mac c, flow_min c, flow_max c, frequency_min c, frequency_max c)
  /\ post_init (post_init c) = post_init c.
Proof.
  unfold post_init.
  destruct (String.eqb (id c) "") eqn:E.
  - apply String.eqb_eq in E. split; [intros H; contradiction|].
    split.
    + intros _ Ha. simpl.
      destruct (generated_id_shape (name c)) as (H1 & H2 & H3 & H4 & H5).
      repeat split; auto.
    + split; [reflexivity|]. simpl.
      destruct (String.eqb (generated_id (name c)) ""); reflexivity.
  - split; [reflexivity|].
    split; [intros H; rewrite H in E; discriminate|].
    split; [reflexivity|]. rewrite E. reflexivity.
Qed.

Lemma post_init_id_witness :
  id (default_config "Left-Side Pump" "AA:BB:CC:DD:EE:FF") = "left_side_pump"
  /\ lacks " " (id (default_config "Left-Side Pump" "AA:BB:CC:DD:EE:FF")) = true.
Proof.
  destruct (post_init_id (mkPumpConfig "Left-Side Pump" "AA:BB:CC:DD:EE:FF" ""
                            30 100 5 20)) as (_ & H & _).
  destruct H as (Hid & Hs & _); [reflexivity|reflexivity|].
  split; [exact Hid|exact Hs].
Defined.

Lemma pumps_get_set (key k : string) (v : Session)
    (pumps : list (string * Session)) :
  pumps_get k (pumps_set key v pumps)
  = if String.eqb key k then Some v else pumps_get k pumps.
Proof.
  induction pumps as [|[k0 v0] pumps IH]; simpl.
  - reflexivity.
  - destruct (String.eqb k0 key) eqn:E0; simpl.
    + apply String.eqb_eq in E0. subst k0.
      destruct (String.eqb key k); reflexivity.
    + destruct (String.eqb k0 k) eqn:E1.
      * apply String.eqb_eq in E1. subst k0.
        rewrite String.eqb_sym in E0. rewrite E0. reflexivity.
      * exact IH.
Qed.

Lemma pumps_set_length (key : string) (v : Session)
    (pumps : list (string * Session)) :
  (List.length (pumps_set key v pumps) <= S (List.length pumps))%nat.
Proof.
  induction pumps as [|[k0 v0] pumps IH]; simpl; [lia|].
  destruct (String.eqb k0 key); simpl; lia.
Qed.

(** The pump table built at start-up holds, under each id, the pump of
    the last configuration with that id, with that configuration's index:
    when two configurations share an id the earlier pump is replaced and
    cannot be reached.  An id that no configuration has is looked up in
    the table as it was, and the table never grows by more than one pump
    per configuration. *)
Theorem create_pumps_lookup (key : string) (index : Z)
    (configs : list PumpConfig) (pumps : list (string * Session)) :
  pumps_get key (create_pumps index configs pumps)
  = match last_with_id key index configs with
    | Some (pc, i) => Some (new_session pc i)
    | None => pumps_get key pumps
    end
  /\ (List.length (create_pumps index configs pumps)
      <= List.length pumps + List.length configs)%nat.
Proof.
  revert index pumps. induction configs as [|pc configs IH]; intros index pumps.
  - simpl. split; [reflexivity|lia].
  - simpl. destruct (IH (index + 1) (pumps_set (id pc) (new_session pc index) pumps))
      as [Hl Hn].
    split.
    + rewrite Hl. destruct (last_with_id key (index + 1) configs) as [[pc' i]|];
        [reflexivity|].
      rewrite pumps_get_set. destruct (String.eqb (id pc) key); reflexivity.
    + pose proof (pumps_set_length (id pc) (new_session pc index) pumps). lia.
Qed.

Local Close Scope string_scope.

Example create_pumps_collision :
  map (fun kv => (fst kv, pump_index (snd kv), name (config (snd kv))))
    (create_pumps 0
       [default_config "Left Pump" "AA:AA:AA:AA:AA:AA";
        default_config "left-pump" "BB:BB:BB:BB:BB:BB"] [])
  = [("left_pump"%string, 1, "left-pump"%string)].
Proof. reflexivity. Qed.

(** ** Scanner *)

Local Open Scope string_scope.

Lemma lower_app (a b : string) : lower (a ++ b) = lower a ++ lower b.
Proof.
  induction a as [|c a IH]; simpl; [reflexivity|]. rewrite IH. reflexivity.
Qed.

Lemma starts_with_app (n r : string) : starts_with n (n ++ r) = true.
Proof.
  induction n as [|c n IH]; simpl; [reflexivity|].
  rewrite Ascii.eqb_refl, IH. reflexivity.
Qed.

Lemma contains_prefix (n h : string) :
  starts_with n h = true -> contains n h = true.
Proof. intros H. destruct h; simpl; rewrite H; reflexivity. Qed.

Lemma contains_app (n pre post : string) : contains n (pre ++ n ++ post) = true.
Proof.
  induction pre as [|c pre IH].
  - change ("" ++ n ++ post) with (n ++ post).
    apply contains_prefix. apply starts_with_app.
  - change (String c pre ++ n ++ post) with (String c (pre ++ n ++ post)).
    cbn [contains]. rewrite IH. apply orb_true_r.
Qed.

Lemma str_in_map_lower (x : string) (l : list string) :
  str_in x (map lower l) = true <-> exists u, In u l /\ lower u = x.
Proof.
  rewrite str_in_In, in_map_iff. split.
  - intros (u & E & H). exists u. auto.
  - intros (u & H & E). exists u. auto.
Qed.

(** [is_jebao] finds a pattern wherever it sits in the name and however
    its letters are cased, and it finds the Gizwits service UUID however
    it is cased and whatever the name; a device without a name is taken
    for a pump exactly when it advertises that UUID. *)
Theorem is_jebao_detects (service_uuids : list string) :
  (forall pattern variant pre post,
     In pattern JEBAO_PATTERNS -> lower variant = lower pattern ->
     is_jebao (pre ++ variant ++ post) service_uuids = true)
  /\ (forall name u,
       In u service_uuids -> lower u = lower GIZWITS_SERVICE_UUID ->
       is_jebao name service_uuids = true)
  /\ (is_jebao "" service_uuids = true
      <-> exists u, In u service_uuids
                    /\ lower u = lower GIZWITS_SERVICE_UUID).
Proof.
  split; [|split].
  - intros pattern variant pre post Hp Hv. unfold is_jebao.
    apply orb_true_iff. left. apply andb_true_iff. split.
    + destruct variant as [|c v].
      * exfalso. unfold JEBAO_PATTERNS in Hp. simpl in Hp.
        destruct Hp as [<-|[<-|[<-|[<-|[]]]]]; discriminate.
      * destruct pre; reflexivity.
    + apply existsb_exists. exists pattern. split; [exact Hp|].
      rewrite !lower_app, Hv. apply contains_app.
  - intros name u Hu Hl. unfold is_jebao.
    apply orb_true_iff. right. apply str_in_map_lower. exists u. auto.
  - unfold is_jebao. simpl. apply str_in_map_lower.
Qed.

Lemma is_jebao_detects_witness :
  is_jebao "my xpg-gagent-1A2B" [] = true.
Proof.
  apply (proj1 (is_jebao_detects []) "XPG-GAgent" "xpg-gagent" "my " "-1A2B").
  - simpl. auto.
  - reflexivity.
Defined.

Local Close Scope string_scope.

(** ** Connect handshake: when the login response arrives *)

Lemma update_state_authenticated (now : float) (t h l v : Z) (s : Session) :
  authenticated (update_state now t h l v s) = authenticated s.
Proof.
  unfold update_state.
  destruct (apply_attribute now t h l v (state s)) as [p [|]]; reflexivity.
Qed.

Lemma byte_to_Z_zero (b : byte) : byte_to_Z b = 0 -> b = x00.
Proof.
  unfold byte_to_Z. intros H.
  assert (E : Byte.to_N b = Byte.to_N x00) by (simpl; lia).
  pose proof (Byte.of_to_N b) as Hb. rewrite E in Hb.
  rewrite Byte.of_to_N in Hb. congruence.
Qed.

(** A notification turns [authenticated] on exactly when it is an accepted
    login response, and never turns it off. *)
Lemma handler_authenticated (now : float) (data : bytes) (s : Session) :
  authenticated (notification_handler now data s) = true
  <-> authenticated s = true \/ login_accepted data.
Proof.
  unfold notification_handler, login_accepted, frame_cmd.
  destruct (List.length data <? 8)%nat eqn:E8.
  { apply Nat.ltb_lt in E8. split; [auto|]. intros [H|(_ & H & _)]; [exact H|lia]. }
  destruct (from_bytes_big (slice 6 8 data) =? 7) eqn:E7.
  { apply Z.eqb_eq in E7. rewrite E7.
    destruct (8 <? List.length data)%nat; simpl.
    - split; [auto|]. intros [H|(H & _)]; [exact H|discriminate].
    - split; [auto|]. intros [H|(H & _)]; [exact H|discriminate]. }
  change (false && (8 <? List.length data)%nat) with false. cbv iota.
  destruct (from_bytes_big (slice 6 8 data) =? 9) eqn:E9.
  { destruct (8 <? List.length data)%nat eqn:El; simpl.
    - destruct (byte_to_Z (byte_at 8 data) =? 0) eqn:Eb; simpl.
      + split; [|reflexivity]. intros _. right.
        apply Z.eqb_eq in E9, Eb. apply Nat.ltb_lt in El.
        repeat split; [exact E9|exact El|apply byte_to_Z_zero; exact Eb].
      + split; [auto|]. intros [H|(_ & _ & H)]; [exact H|].
        rewrite H in Eb. discriminate.
    - apply Nat.ltb_ge in El. split; [auto|].
      intros [H|(_ & H & _)]; [exact H|lia]. }
  apply Z.eqb_neq in E9.
  assert (Hno : authenticated s = true
                <-> authenticated s = true
                    \/ (from_bytes_big (slice 6 8 data) = 9
                        /\ (8 < List.length data)%nat /\ byte_at 8 data = x00)).
  { split; [auto|]. intros [H|(H & _)]; [exact H|contradiction]. }
  destruct ((from_bytes_big (slice 6 8 data) =? 147) && (19 <=? List.length data)%nat);
    [|exact Hno].
  cbv zeta.
  destruct (11 <=? List.length (slice_from 12 data))%nat; [|exact Hno].
  rewrite update_state_authenticated. exact Hno.
Qed.

Lemma deliver_authenticated (now : float) (inbox : nat -> list bytes) (k : nat)
    (s : Session) :
  authenticated (deliver now inbox k s) = true
  <-> authenticated s = true \/ exists d, In d (inbox k) /\ login_accepted d.
Proof.
  unfold deliver. generalize (inbox k) as l. intros l. revert s.
  induction l as [|d l IH]; intros s; simpl.
  - split; [auto|]. intros [H|(d & [] & _)]. exact H.
  - rewrite IH, handler_authenticated. split.
    + intros [[H|H]|(d' & Hin & Hl)].
      * left. exact H.
      * right. exists d. auto.
      * right. exists d'. auto.
    + intros [H|(d' & [<-|Hin] & Hl)].
      * left. left. exact H.
      * left. right. exact Hl.
      * right. exists d'. auto.
Qed.

Lemma sleeps_next (sched : nat -> Session -> Session) (i k : nat) (s : Session) :
  sleeps sched (S i) k s = sched (k + i)%nat (sleeps sched i k s).
Proof.
  revert k s. induction i as [|i IH]; intros k s.
  - simpl. rewrite Nat.add_0_r. reflexivity.
  - change (sleeps sched (S (S i)) k s)
      with (sleeps sched (S i) (S k) (sched k s)).
    rewrite IH. simpl. f_equal. lia.
Qed.

Lemma at_poll_authenticated (now : float) (inbox : nat -> list bytes)
    (s : Session) (i : nat) :
  authenticated (at_poll (deliver now inbox) s i) = true
  <-> authenticated s = true
      \/ exists k d, (k <= 2 + i)%nat /\ In d (inbox k) /\ login_accepted d.
Proof.
  unfold at_poll. induction i as [|i IH].
  - simpl sleeps. unfold after_handshake.
    rewrite !deliver_authenticated.
    change (authenticated
              (with_client (Some (mkClient true))
                 (deliver now inbox 0
                    (with_client (Some (mkClient false)) (with_loop_bound true s)))))
      with (authenticated
              (deliver now inbox 0
                 (with_client (Some (mkClient false)) (with_loop_bound true s)))).
    rewrite deliver_authenticated.
    change (authenticated
              (with_client (Some (mkClient false)) (with_loop_bound true s)))
      with (authenticated s).
    split.
    + intros [[[H|(d & Hd)]|(d & Hd)]|(d & Hd)].
      * left. exact H.
      * right. exists 0%nat, d. split; [lia|exact Hd].
      * right. exists 1%nat, d. split; [lia|exact Hd].
      * right. exists 2%nat, d. split; [lia|exact Hd].
    + intros [H|(k & d & Hk & Hd)]; [left; left; left; exact H|].
      destruct k as [|[|[|k]]]; [| | |lia].
      * left. left. right. exists d. exact Hd.
      * left. right. exists d. exact Hd.
      * right. exists d. exact Hd.
  - rewrite sleeps_next, deliver_authenticated, IH. split.
    + intros [[H|(k & d & Hk & Hd)]|(d & Hd)].
      * left. exact H.
      * right. exists k, d. split; [lia|exact Hd].
      * right. exists (3 + i)%nat, d. split; [lia|exact Hd].
    + intros [H|(k & d & Hk & Hd)]; [left; left; exact H|].
      destruct (Nat.eq_dec k (3 + i)) as [->|Hne].
      * right. exists d. exact Hd.
      * left. right. exists k, d. split; [lia|exact Hd].
Qed.

(** With the passcode request sent, an unauthenticated session that only
    receives notifications connects exactly when an accepted login
    response (command 0x0009, status byte 0) arrives during one of the
    awaits up to the 49th sleep; one that arrives only during the 50th
    sleep comes too late.  The session is then authenticated. *)
Theorem connect_iff_login_in_time (tr : Transport) (now : float)
    (inbox : nat -> list bytes) (s : Session) :
  client_connected s = false ->
  authenticated s = false ->
  handshake_sent tr ->
  (fst (fst (connect tr (deliver now inbox) s)) = true
   <-> exists k d, (k <= 51)%nat /\ In d (inbox k) /\ login_accepted d)
  /\ (fst (fst (connect tr (deliver now inbox) s)) = true ->
      authenticated (snd (connect tr (deliver now inbox) s)) = true).
Proof.
  intros Hc Ha Hs.
  pose proof (wait_authenticated_ok (deliver now inbox) 50 3
                (after_handshake (deliver now inbox) s)) as Hok.
  pose proof (wait_authenticated_state (deliver now inbox) 50 3
                (after_handshake (deliver now inbox) s)) as Hst.
  rewrite (connect_handshake tr (deliver now inbox) s Hc Hs).
  assert (Hiff : (exists i, (i < 50)%nat
                    /\ authenticated
                         (sleeps (deliver now inbox) i 3
                            (after_handshake (deliver now inbox) s)) = true)
                 <-> exists k d, (k <= 51)%nat /\ In d (inbox k)
                                  /\ login_accepted d).
  { split.
    - intros (i & Hi & Hau).
      apply (at_poll_authenticated now inbox s i) in Hau.
      destruct Hau as [Hau|(k & d & Hk & Hd)]; [congruence|].
      exists k, d. split; [lia|exact Hd].
    - intros (k & d & Hk & Hd).
      exists (k - 2)%nat. split; [lia|].
      apply (at_poll_authenticated now inbox s (k - 2)).
      right. exists k, d. split; [lia|exact Hd]. }
  destruct (wait_authenticated (deliver now inbox) 50 3
              (after_handshake (deliver now inbox) s)) as [[|] s4];
    simpl in Hok, Hst.
  - simpl. split; [|intros _; apply Hst; reflexivity].
    split; [intros _|reflexivity]. apply Hiff. apply Hok. reflexivity.
  - pose proof (connect_failed_result (deliver now inbox)
                  [OpOpen; OpConnect; OpStartNotify; OpWrite get_passcode_frame]
                  53 s4 ltac:(discriminate)) as (Hf & _ & _).
    rewrite Hf. split; [|discriminate].
    split; [discriminate|]. intros H. apply Hiff in H. apply Hok in H.
    discriminate.
Qed.

Lemma connect_iff_login_in_time_witness :
  authenticated
    (snd (connect good_transport (deliver 0%float s1_inbox)
            (new_session test_config 0))) = true.
Proof.
  destruct (connect_iff_login_in_time good_transport 0%float s1_inbox
              (new_session test_config 0)) as [Hiff Hau].
  - reflexivity.
  - reflexivity.
  - repeat split.
  - apply Hau. apply Hiff.
    exists 3%nat, [x00; x00; x00; x03; x04; x00; x00; x09; x00].
    split; [lia|]. split; [left; reflexivity|]. repeat split. simpl. lia.
Defined.

(** ** Connect handshake: what is written *)

Lemma written_app (a b : list op) : written (a ++ b) = written a ++ written b.
Proof.
  induction a as [|o a IH]; simpl; [reflexivity|].
  destruct o; simpl; rewrite IH; reflexivity.
Qed.

Lemma connect_failed_written (sched : nat -> Session -> Session)
    (ops : list op) (k : nat) (s : Session) :
  written (snd (fst (connect_failed sched ops k s))) = written ops.
Proof.
  unfold connect_failed, cleanup_connection. simpl.
  destruct (client s); simpl; rewrite written_app; simpl;
    apply app_nil_r.
Qed.

(** Whatever the transport and whatever else runs, [connect()] writes
    nothing but the passcode request, at most once, and only after the
    client has been created, connected and subscribed; a session that was
    already connected writes nothing. *)
Theorem connect_writes_passcode_request (tr : Transport)
    (sched : nat -> Session -> Session) (s : Session) :
  (written (snd (fst (connect tr sched s))) = []
   \/ written (snd (fst (connect tr sched s))) = [get_passcode_frame])
  /\ (written (snd (fst (connect tr sched s))) <> [] ->
      client_connected s = false
      /\ open_client tr = Ret tt
      /\ gatt_connect tr = Ret tt
      /\ start_notify tr = Ret tt).
Proof.
  unfold connect.
  destruct (client_connected s); [split; [left; reflexivity|intros H; contradiction]|].
  destruct (open_client tr) as [[]|e1].
  2:{ rewrite connect_failed_written. simpl.
      split; [left; reflexivity|intros H; contradiction]. }
  destruct (gatt_connect tr) as [[]|e2].
  2:{ rewrite connect_failed_written. simpl.
      split; [left; reflexivity|intros H; contradiction]. }
  destruct (start_notify tr) as [[]|e3].
  2:{ rewrite connect_failed_written. simpl.
      split; [left; reflexivity|intros H; contradiction]. }
  change (make_packet CMD_GET_PASSCODE []) with (Ret get_passcode_frame).
  cbv iota.
  destruct (write_gatt_char tr get_passcode_frame) as [[]|e4].
  2:{ rewrite connect_failed_written. simpl.
      split; [right; reflexivity|intros _; repeat split]. }
  destruct (wait_authenticated sched 50 3
              (sched 2%nat
                 (sched 1%nat
                    (with_client (Some (mkClient true))
                       (sched 0%nat
                          (with_client (Some (mkClient false))
                             (with_loop_bound true s)))))))
    as [[|] s4].
  - simpl. split; [right; reflexivity|intros _; repeat split].
  - rewrite connect_failed_written. simpl.
    split; [right; reflexivity|intros _; repeat split].
Qed.

Lemma connect_writes_passcode_request_witness :
  written (snd (fst (connect good_transport idle (new_session test_config 0))))
  = [get_passcode_frame].
Proof.
  destruct (connect_writes_passcode_request good_transport idle
              (new_session test_config 0)) as [[H|H] _].
  - vm_compute in H. discriminate.
  - exact H.
Defined.

(** ** Reconnect back-off: when the ceiling is reached *)

Local Open Scope Q_scope.






Local Close Scope Q_scope.

Lemma update_state_event_iff_change_witness :
  callbacks (update_state 0%float 0 128 0 75 (new_session test_config 0)) = 1%nat
  /\ callbacks (update_state 0%float 0 128 0 50 (new_session test_config 0)) = 0%nat.
Proof.
  split.
  - destruct (update_state_event_iff_change 0%float 0 128 0 75
                (new_session test_config 0)) as [[H|(_ & _ & H)] _].
    + vm_compute in H. discriminate.
    + exact H.
  - apply (proj2 (update_state_event_iff_change 0%float 0 128 0 50
                    (new_session test_config 0))).
    reflexivity.
Defined.
